(** * Git hook helpers: the header stamper and the branch guard

    A shallow embedding of [scripts/add_repo_path_header.py] and
    [scripts/block_branch.py].

    Text is modelled by [string]; a character stands for a code point
    (the model covers text whose code points are below 256, so every text
    of the model can be encoded as UTF-8).  Files live in a store keyed by
    the components of their resolved absolute path, the root first, as in
    [Path.parts].  The store holds the text of the files that can be
    opened and hold UTF-8; the environment tells which other paths can be
    opened but do not hold UTF-8, and [open] raises on every path that is
    neither.  Python exceptions are values of [exn], threaded through a
    small state-and-error monad. *)

From Stdlib Require Import String Ascii List ZArith Bool Lia.
From stdpp Require Import gmap strings list fin_maps.

Local Open Scope string_scope.
Local Open Scope list_scope.
Local Open Scope Z_scope.

(** ** Characters and Python [str] methods *)

Definition LF : ascii := "010"%char.
Definition CR : ascii := "013"%char.

(** The one-character strings used below. *)
Definition nl : string := String LF "".
Definition dquote : string := String "034"%char "".
Definition a_tilde : string := String "227"%char "".

Module Str.

(** [s.startswith(pre)] *)
Fixpoint startswith (s pre : string) {struct pre} : bool :=
  match pre with
  | EmptyString => true
  | String a pre' =>
      match s with
      | EmptyString => false
      | String b s' => Ascii.eqb a b && startswith s' pre'
      end
  end.

(** [s.endswith(suf)]: some tail of [s] is [suf]. *)
Fixpoint endswith (s suf : string) : bool :=
  String.eqb s suf ||
  match s with
  | EmptyString => false
  | String _ r => endswith r suf
  end.

(** [sub in s] *)
Fixpoint contains (s sub : string) : bool :=
  startswith s sub ||
  match s with
  | EmptyString => false
  | String _ r => contains r sub
  end.

(** [c.isspace()] on the code points below 256. *)
Definition isspace (c : ascii) : bool :=
  let n := N_of_ascii c in
  ((9 <=? n) && (n <=? 13) || (28 <=? n) && (n <=? 32)
   || (n =? 133) || (n =? 160))%N.

Fixpoint lstrip (s : string) : string :=
  match s with
  | EmptyString => EmptyString
  | String c r => if isspace c then lstrip r else s
  end.

Fixpoint rstrip (s : string) : string :=
  match s with
  | EmptyString => EmptyString
  | String c r =>
      match rstrip r with
      | EmptyString => if isspace c then EmptyString else String c EmptyString
      | r' => String c r'
      end
  end.

(** [s.strip()] *)
Definition strip (s : string) : string := rstrip (lstrip s).

(** [s.split(sep)] for a one-character separator. *)
Fixpoint split (sep : ascii) (s : string) : list string :=
  match s with
  | EmptyString => [EmptyString]
  | String c r =>
      if Ascii.eqb c sep then EmptyString :: split sep r
      else match split sep r with
           | [] => [String c EmptyString]
           | x :: xs => String c x :: xs
           end
  end.

(** [sep.join(l)] *)
Definition join (sep : string) (l : list string) : string :=
  String.concat sep l.

(** A string free of line feeds and carriage returns. *)
Fixpoint single_line (s : string) : bool :=
  match s with
  | EmptyString => true
  | String c r => negb (Ascii.eqb c LF) && negb (Ascii.eqb c CR) && single_line r
  end.

Fixpoint has_cr (s : string) : bool :=
  match s with
  | EmptyString => false
  | String c r => Ascii.eqb c CR || has_cr r
  end.

Fixpoint has_lf (s : string) : bool :=
  match s with
  | EmptyString => false
  | String c r => Ascii.eqb c LF || has_lf r
  end.

End Str.

(** ** Text-mode file input and output

    Both [open] calls use the default [newline=None]: on input every
    carriage return, alone or followed by a line feed, is delivered as one
    line feed; on output every line feed is written as [os.linesep]. *)

Inductive newline := NL_LF | NL_CRLF.

Definition linesep_text (ls : newline) : string :=
  match ls with
  | NL_LF => nl
  | NL_CRLF => String CR nl
  end.

Module TextIO.

(** Universal-newline decoding; [after_cr] records that the previous
    character was a carriage return, already delivered as a line feed. *)
Fixpoint decode_from (after_cr : bool) (s : string) : string :=
  match s with
  | EmptyString => EmptyString
  | String c r =>
      if Ascii.eqb c CR then String LF (decode_from true r)
      else if Ascii.eqb c LF then
        (if after_cr then decode_from false r
         else String LF (decode_from false r))
      else String c (decode_from false r)
  end.

Definition decode_newlines (s : string) : string := decode_from false s.

Fixpoint encode_newlines (ls : newline) (s : string) : string :=
  match s with
  | EmptyString => EmptyString
  | String c r =>
      if Ascii.eqb c LF then linesep_text ls +:+ encode_newlines ls r
      else String c (encode_newlines ls r)
  end.

(** Cutting decoded text into lines, each keeping its line feed. *)
Fixpoint splitlines (s : string) : list string :=
  match s with
  | EmptyString => []
  | String c r =>
      if Ascii.eqb c LF then nl :: splitlines r
      else match splitlines r with
           | [] => [String c EmptyString]
           | l :: ls => String c l :: ls
           end
  end.

(** [f.readlines()] on a file whose stored text is [content]. *)
Definition readlines (content : string) : list string :=
  splitlines (decode_newlines content).

(** What [f.writelines(lines)] leaves in the file. *)
Definition writelines (ls : newline) (lines : list string) : string :=
  encode_newlines ls (String.concat "" lines).

End TextIO.

(** ** Exceptions and the monad of the scripts *)

Inductive exn :=
| CalledProcessError
| OSError
| ValueError
| AttributeError
| UnicodeDecodeError.

Inductive result (A : Type) :=
| Ok (a : A)
| Raise (e : exn).
Arguments Ok {A} a.
Arguments Raise {A} e.

Inductive open_mode := ReadUpdate | WriteTruncate.

(** The part of the machine the stamper acts on: the files, and the log
    of the [open] calls that succeeded. *)
Record world := World {
  files : gmap (list string) string;
  opened : list (list string * open_mode)
}.

Definition M (A : Type) : Type := world -> result A * world.

Definition ret {A} (a : A) : M A := fun w => (Ok a, w).

Definition raise {A} (e : exn) : M A := fun w => (Raise e, w).

Definition bind {A B} (m : M A) (k : A -> M B) : M B :=
  fun w =>
    match m w with
    | (Ok a, w') => k a w'
    | (Raise e, w') => (Raise e, w')
    end.

Definition lift {A} (r : result A) : M A := fun w => (r, w).

Notation "x <- m ;; k" := (bind m (fun x => k))
  (at level 100, m at next level, right associativity).
Notation "m ;;; k" := (bind m (fun _ => k))
  (at level 100, right associativity).

(** [for x in l: body(x)] *)
Fixpoint for_each {A} (body : A -> M unit) (l : list A) : M unit :=
  match l with
  | [] => ret tt
  | x :: l' => body x ;;; for_each body l'
  end.

(** ** Paths *)

Record PurePath := mkPath { anchored : bool; parts : list string }.

Module Pathlib.

(** The root of a path string, POSIX flavour: exactly two leading slashes
    are a root of their own, one slash or three and more are the root [/]. *)
Definition root_of (s : string) : list string :=
  if Str.startswith s "//" && negb (Str.startswith s "///") then ["//"]
  else if Str.startswith s "/" then ["/"]
  else [].

(** [Path(s)], POSIX flavour: the root comes first in [parts], empty and
    [.] components are dropped. *)
Definition of_string (s : string) : PurePath :=
  {| anchored := Str.startswith s "/";
     parts := root_of s ++
              List.filter
                (fun c => negb (String.eqb c "" || String.eqb c "."))
                (Str.split "/"%char s) |}.

Fixpoint strip_prefix (root p : list string) : option (list string) :=
  match root, p with
  | [], _ => Some p
  | r :: root', c :: p' =>
      if String.eqb r c then strip_prefix root' p' else None
  | _ :: _, [] => None
  end.

(** [p.relative_to(root)] *)
Definition relative_to (p root : PurePath) : result PurePath :=
  if Bool.eqb (anchored p) (anchored root) then
    match strip_prefix (parts root) (parts p) with
    | Some rest => Ok {| anchored := false; parts := rest |}
    | None => Raise ValueError
    end
  else Raise ValueError.

(** [p.name]: the last component, the root not counted. *)
Definition name (p : PurePath) : string :=
  match parts p with
  | [] => ""
  | [c] => if anchored p then "" else c
  | _ => List.last (parts p) ""
  end.

(** [p.as_posix()] *)
Definition as_posix (p : PurePath) : string :=
  if anchored p then
    match parts p with
    | [] => "/"
    | root :: rest => root +:+ Str.join "/" rest
    end
  else match parts p with
       | [] => "."
       | _ => Str.join "/" (parts p)
       end.

End Pathlib.

(** The two kinds of object [rel_path] is bound to in [ensure_header]. *)
Inductive pyobj :=
| PathObj (p : PurePath)
| StrObj (s : string).

(** [v.as_posix()]: a [str] has no such attribute. *)
Definition call_as_posix (v : pyobj) : result string :=
  match v with
  | PathObj p => Ok (Pathlib.as_posix p)
  | StrObj _ => Raise AttributeError
  end.

(** ** The environment of a run *)

(** How a child process ended: it ran and returned a code and its output
    text, or it could not be started. *)
Inductive proc :=
| Completed (returncode : Z) (stdout : string)
| NotStarted.

(** [not_utf8] is consulted for the paths outside the store of text
    files: it tells the files that can be opened for reading and writing
    but whose bytes are not UTF-8.  The stamper never writes such a file,
    so they stay the same during a run. *)
Record Env := mkEnv {
  linesep : newline;                        (* os.linesep *)
  cwd : list string;                        (* Path.cwd() *)
  resolve : string -> list string;          (* Path(f).resolve() *)
  not_utf8 : list string -> bool;           (* openable, not UTF-8 *)
  git_show_toplevel : proc;                 (* git rev-parse --show-toplevel *)
  git_abbrev_ref_head : proc                (* git rev-parse --abbrev-ref HEAD *)
}.

(** [subprocess.check_output(cmd)] in text mode. *)
Definition check_output (p : proc) : result string :=
  match p with
  | NotStarted => Raise OSError
  | Completed rc out => if rc =? 0 then Ok out else Raise CalledProcessError
  end.

Definition Path_cwd (env : Env) : PurePath :=
  {| anchored := true; parts := cwd env |}.

(** [resolve] gives the components of the resolved path as [Path.parts]
    does, the root first. *)
Definition Path_resolve (env : Env) (filepath : string) : PurePath :=
  {| anchored := true; parts := resolve env filepath |}.

(** ** scripts/add_repo_path_header.py *)

Definition get_repo_root (env : Env) : result PurePath :=
  match check_output (git_show_toplevel env) with
  | Ok out => Ok (Pathlib.of_string (Str.strip out))
  | Raise CalledProcessError => Ok (Path_cwd env)
  | Raise e => Raise e
  end.

(** Lines 20-25: the header line of a file. *)
Definition compute_header (env : Env) (filepath : string)
    (repo_root : PurePath) : result string :=
  let path := Path_resolve env filepath in
  let rel_path :=
    match Pathlib.relative_to path repo_root with
    | Ok r => Ok (PathObj r)
    | Raise ValueError => Ok (StrObj (Pathlib.name path))
    | Raise e => Raise e
    end in
  match rel_path with
  | Ok v =>
      match call_as_posix v with
      | Ok s => Ok ("# " +:+ s +:+ nl)
      | Raise e => Raise e
      end
  | Raise e => Raise e
  end.

(** Lines 31-35: the update of the list [lines]. *)
Definition stamp_lines (header : string) (lines : list string) : list string :=
  match lines with
  | l0 :: _ =>
      if Str.startswith l0 "# " then
        if negb (String.eqb l0 header) then <[0%nat := header]> lines
        else lines
      else header :: lines
  | [] => header :: lines
  end.

(** [open(path, "r+", encoding="utf-8")] followed by [f.readlines()]:
    [open] raises on a file that cannot be opened, and [readlines] raises
    on a file that was opened but does not hold UTF-8. *)
Definition open_readlines (env : Env) (p : list string) : M (list string) :=
  fun w =>
    match files w !! p with
    | Some content =>
        (Ok (TextIO.readlines content),
         {| files := files w; opened := opened w ++ [(p, ReadUpdate)] |})
    | None =>
        if not_utf8 env p then
          (Raise UnicodeDecodeError,
           {| files := files w; opened := opened w ++ [(p, ReadUpdate)] |})
        else (Raise OSError, w)
    end.

(** [open(path, "w", encoding="utf-8")] followed by [f.writelines(lines)].
    The file was opened for reading and writing just before, and the text
    of the model always encodes as UTF-8, so the write goes through.  A
    write that fails after [open] has emptied the file, as for a header
    that holds a lone surrogate (a file name that is not UTF-8) or on a
    device error, is outside the model. *)
Definition open_writelines (ls : newline) (p : list string)
    (lines : list string) : M unit :=
  fun w =>
    (Ok tt,
     {| files := <[p := TextIO.writelines ls lines]> (files w);
        opened := opened w ++ [(p, WriteTruncate)] |}).

Definition ensure_header (env : Env) (filepath : string)
    (repo_root : PurePath) : M unit :=
  header <- lift (compute_header env filepath repo_root) ;;
  lines <- open_readlines env (resolve env filepath) ;;
  open_writelines (linesep env) (resolve env filepath)
    (stamp_lines header lines).

(** [n] runs of [ensure_header] on the same file, one after the other. *)
Fixpoint repeat_runs (env : Env) (filepath : string) (repo_root : PurePath)
    (n : nat) : M unit :=
  match n with
  | O => ret tt
  | S n' =>
      repeat_runs env filepath repo_root n' ;;;
      ensure_header env filepath repo_root
  end.

(** A file that is not empty and whose first line, as [readlines] gives
    it, starts with the comment marker and ends with a line feed. *)
Definition marked (content : string) : bool :=
  negb (String.eqb content "") &&
  match TextIO.readlines content with
  | l :: _ => Str.startswith l "# " && Str.endswith l nl
  | [] => false
  end.

(** The body of the loop of [main]. *)
Definition process_arg (env : Env) (repo_root : PurePath)
    (file : string) : M unit :=
  if Str.endswith file ".py" then ensure_header env file repo_root
  else ret tt.

(** An argument the loop of [main] gets past: one that is skipped, or a
    file of the store, which can be opened and holds UTF-8 text, that lies
    below the root. *)
Definition stampable (env : Env) (repo_root : PurePath) (w : world)
    (file : string) : bool :=
  negb (Str.endswith file ".py") ||
  match files w !! resolve env file,
        Pathlib.relative_to (Path_resolve env file) repo_root with
  | Some _, Ok _ => true
  | _, _ => false
  end.

(** [main()], given [sys.argv]. *)
Definition main (env : Env) (argv : list string) : M Z :=
  repo_root <- lift (get_repo_root env) ;;
  for_each (process_arg env repo_root) (drop 1 argv) ;;;
  ret 0.

(** How the interpreter ends: [sys.exit(code)], or an exception nobody
    caught, reported by a traceback with exit status 1. *)
Inductive exit_status :=
| Exit (code : Z)
| Traceback (e : exn).

Definition exit_code (s : exit_status) : Z :=
  match s with
  | Exit c => c
  | Traceback _ => 1
  end.

(** [sys.exit(main())] *)
Definition run_stamper (env : Env) (argv : list string)
    (w : world) : exit_status * world :=
  match main env argv w with
  | (Ok code, w') => (Exit code, w')
  | (Raise e, w') => (Traceback e, w')
  end.

(** ** scripts/block_branch.py *)

Definition refusal (branch : string) : string :=
  "Commits diretos para " +:+ dquote +:+ branch +:+ dquote
  +:+ " n" +:+ a_tilde +:+ "o s" +:+ a_tilde +:+ "o permitidos.".

(** The module body: the exit status and the text printed. *)
Definition block_branch (env : Env) : exit_status * string :=
  match check_output (git_abbrev_ref_head env) with
  | Raise e => (Traceback e, "")
  | Ok out =>
      let branch := Str.strip out in
      if String.eqb branch "main" || String.eqb branch "master"
      then (Exit 1, refusal branch +:+ nl)
      else (Exit 0, "")
  end.

(** ** A concrete environment for the examples *)

Module Sample.

(** A resolver without symbolic links: absolute paths are parsed,
    relative ones are taken below the working directory. *)
Definition lexical_resolve (wd : list string) (f : string) : list string :=
  let p := Pathlib.of_string f in
  if anchored p then parts p else wd ++ parts p.

Definition repo : list string := ["/"; "home"; "ana"; "poetry"].

Definition env_in_repo : Env :=
  {| linesep := NL_LF;
     cwd := repo;
     resolve := lexical_resolve repo;
     not_utf8 := fun _ => false;
     git_show_toplevel := Completed 0 ("/home/ana/poetry" +:+ nl);
     git_abbrev_ref_head := Completed 0 ("feature/x" +:+ nl) |}.

Definition env_no_repo : Env :=
  {| linesep := NL_LF;
     cwd := repo;
     resolve := lexical_resolve repo;
     not_utf8 := fun _ => false;
     git_show_toplevel := Completed 128 "";
     git_abbrev_ref_head := Completed 128 "" |}.

Definition root : PurePath := {| anchored := true; parts := repo |}.

Definition one_file (p : list string) (content : string) : world :=
  {| files := {[ p := content ]}; opened := [] |}.

Definition a_py : list string :=
  ["/"; "home"; "ana"; "poetry"; "src"; "a.py"].

(** A file with a stale header. *)
Definition stale : world :=
  one_file a_py ("# old/a.py" +:+ nl +:+ "x = 1" +:+ nl).

(** A file that starts with a shebang line. *)
Definition shebang_line : string := "#!/usr/bin/env python3" +:+ nl.
Definition with_shebang : world :=
  one_file a_py (shebang_line +:+ "x = 1" +:+ nl).

(** A file with the right header, then a line that ends in CR LF. *)
Definition crlf_text : string :=
  "# src/a.py" +:+ nl +:+ "x = 1" +:+ String CR nl.
Definition with_crlf : world := one_file a_py crlf_text.

(** A file whose name holds a line feed. *)
Definition odd_name : string := "a" +:+ nl +:+ "b.py".
Definition odd_py : list string := ["/"; "home"; "ana"; "poetry"; odd_name].
Definition with_odd_name : world := one_file odd_py ("x = 1" +:+ nl).

Definition env_on_main : Env :=
  {| linesep := NL_LF;
     cwd := repo;
     resolve := lexical_resolve repo;
     not_utf8 := fun _ => false;
     git_show_toplevel := Completed 0 ("/home/ana/poetry" +:+ nl);
     git_abbrev_ref_head := Completed 0 ("main" +:+ nl) |}.

(** The same repository on a platform whose line separator is CR LF. *)
Definition env_crlf : Env :=
  {| linesep := NL_CRLF;
     cwd := repo;
     resolve := lexical_resolve repo;
     not_utf8 := fun _ => false;
     git_show_toplevel := Completed 0 ("/home/ana/poetry" +:+ nl);
     git_abbrev_ref_head := Completed 0 ("feature/x" +:+ nl) |}.

Definition script : string := "scripts/add_repo_path_header.py".

(** Command lines: a file that is there next to one that is skipped,
    and a file that is missing. *)
Definition argv_a : list string := [script; "README.md"; "src/a.py"].
Definition argv_missing : list string := [script; "src/missing.py"].

(** A file outside the repository. *)
Definition tmp_py : list string := ["/"; "tmp"; "t.py"].
Definition outside : world := one_file tmp_py ("x = 1" +:+ nl).

End Sample.

(** ** Notions used to state further properties *)

(** A string made of white space only. *)
Fixpoint all_space (s : string) : bool :=
  match s with
  | EmptyString => true
  | String c r => Str.isspace c && all_space r
  end.

(** The resolved paths of the arguments [main] hands to [ensure_header]. *)
Definition py_paths (env : Env) (argv : list string) : list (list string) :=
  List.map (resolve env)
    (List.filter (fun f => Str.endswith f ".py") (drop 1 argv)).

(** A file that holds what a completed run of [ensure_header] writes:
    its header line, then lines free of carriage returns, in the line ends
    of the platform. *)
Definition stamped_for (env : Env) (repo_root : PurePath) (w : world)
    (file : string) : Prop :=
  exists rel d,
    Pathlib.relative_to (Path_resolve env file) repo_root = Ok rel
    /\ Str.has_cr d = false
    /\ files w !! resolve env file
       = Some (TextIO.writelines (linesep env)
                 (("# " +:+ Pathlib.as_posix rel +:+ nl) :: TextIO.splitlines d)).

(** Arguments whose header, when there is one, is a single line. *)
Definition one_line_paths (env : Env) (repo_root : PurePath)
    (l : list string) : Prop :=
  forall file rel,
    In file l -> Str.endswith file ".py" = true ->
    Pathlib.relative_to (Path_resolve env file) repo_root = Ok rel ->
    Str.single_line (Pathlib.as_posix rel) = true.

Module Cases.

(** Git answers with the branch name between blanks and line ends. *)
Definition env_padded : Env :=
  {| linesep := NL_LF;
     cwd := Sample.repo;
     resolve := Sample.lexical_resolve Sample.repo;
     not_utf8 := fun _ => false;
     git_show_toplevel := Completed 0 ("/home/ana/poetry" +:+ nl);
     git_abbrev_ref_head :=
       Completed 0 (" " +:+ nl +:+ "master" +:+ String CR nl) |}.

(** Git answers with the bare branch name. *)
Definition env_on_master : Env :=
  {| linesep := NL_LF;
     cwd := Sample.repo;
     resolve := Sample.lexical_resolve Sample.repo;
     not_utf8 := fun _ => false;
     git_show_toplevel := Completed 0 ("/home/ana/poetry" +:+ nl);
     git_abbrev_ref_head := Completed 0 "master" |}.

Definition latin1_py : list string :=
  ["/"; "home"; "ana"; "poetry"; "src"; "latin1.py"].

(** A repository with a file that can be opened but is not UTF-8. *)
Definition env_latin1 : Env :=
  {| linesep := NL_LF;
     cwd := Sample.repo;
     resolve := Sample.lexical_resolve Sample.repo;
     not_utf8 := fun p => bool_decide (p = latin1_py);
     git_show_toplevel := Completed 0 ("/home/ana/poetry" +:+ nl);
     git_abbrev_ref_head := Completed 0 ("feature/x" +:+ nl) |}.

(** Git answers with a root of two slashes. *)
Definition env_two_slashes : Env :=
  {| linesep := NL_LF;
     cwd := Sample.repo;
     resolve := Sample.lexical_resolve Sample.repo;
     not_utf8 := fun _ => false;
     git_show_toplevel := Completed 0 ("//home/ana/poetry" +:+ nl);
     git_abbrev_ref_head := Completed 0 ("feature/x" +:+ nl) |}.


Definition b_py : list string :=
  ["/"; "home"; "ana"; "poetry"; "src"; "b.py"].

(** Two files, the first with a stale header and CR LF line ends, the
    second without a header. *)
Definition two_files : world :=
  {| files := {[ Sample.a_py := "# old" +:+ String CR nl +:+ "x = 1" +:+ String CR nl;
                 b_py := "y = 2" +:+ nl ]};
     opened := [] |}.

End Cases.

(** * Properties *)

(** ** The embedding on small inputs *)

Example readlines_mixed_endings :
  TextIO.readlines ("a" +:+ String CR nl +:+ "b" +:+ String CR "c" +:+ nl +:+ "d")
  = ["a" +:+ nl; "b" +:+ nl; "c" +:+ nl; "d"].
Proof. reflexivity. Qed.

Example readlines_empty : TextIO.readlines "" = [].
Proof. reflexivity. Qed.

Example writelines_crlf :
  TextIO.writelines NL_CRLF ["a" +:+ nl; "b"] = "a" +:+ String CR nl +:+ "b".
Proof. reflexivity. Qed.

Example strip_branch : Str.strip ("  main" +:+ nl) = "main".
Proof. reflexivity. Qed.

Example endswith_py :
  (Str.endswith "src/a.py" ".py", Str.endswith "a.pyc" ".py",
   Str.endswith "py" ".py") = (true, false, false).
Proof. reflexivity. Qed.

Example Path_of_toplevel :
  Pathlib.of_string "/home//ana/./poetry/"
  = {| anchored := true; parts := ["/"; "home"; "ana"; "poetry"] |}.
Proof. reflexivity. Qed.

Example Path_two_slashes :
  Pathlib.of_string "//home/ana"
  = {| anchored := true; parts := ["//"; "home"; "ana"] |}.
Proof. reflexivity. Qed.

Example Path_three_slashes :
  Pathlib.of_string "///home/ana"
  = {| anchored := true; parts := ["/"; "home"; "ana"] |}.
Proof. reflexivity. Qed.

Example Path_of_empty :
  Pathlib.of_string "" = {| anchored := false; parts := [] |}.
Proof. reflexivity. Qed.

Example as_posix_two_slashes :
  Pathlib.as_posix (Pathlib.of_string "//home/ana") = "//home/ana".
Proof. reflexivity. Qed.

Example name_of_root : Pathlib.name (Pathlib.of_string "/") = "".
Proof. reflexivity. Qed.

Example root_of_two_slashes_is_above_no_file :
  get_repo_root Cases.env_two_slashes
  = Ok {| anchored := true; parts := ["//"; "home"; "ana"; "poetry"] |}
  /\ run_stamper Cases.env_two_slashes Sample.argv_a Sample.stale
     = (Traceback AttributeError, Sample.stale).
Proof. split; reflexivity. Qed.

Example file_not_utf8 :
  run_stamper Cases.env_latin1 [Sample.script; "src/latin1.py"] Sample.stale
  = (Traceback UnicodeDecodeError,
     {| files := files Sample.stale;
        opened := [(Cases.latin1_py, ReadUpdate)] |}).
Proof. reflexivity. Qed.

Example relative_inside :
  Pathlib.relative_to (Path_resolve Sample.env_in_repo "src/a.py") Sample.root
  = Ok {| anchored := false; parts := ["src"; "a.py"] |}.
Proof. reflexivity. Qed.

Example header_inside :
  compute_header Sample.env_in_repo "src/a.py" Sample.root
  = Ok ("# src/a.py" +:+ nl).
Proof. reflexivity. Qed.

Example root_in_repo : get_repo_root Sample.env_in_repo = Ok Sample.root.
Proof. reflexivity. Qed.

Example guard_on_feature_branch :
  block_branch Sample.env_in_repo = (Exit 0, "").
Proof. reflexivity. Qed.

Example guard_without_repo :
  block_branch Sample.env_no_repo = (Traceback CalledProcessError, "").
Proof. reflexivity. Qed.

(** ** Strings *)

Lemma append_nil_l (s : string) : "" +:+ s = s.
Proof. reflexivity. Qed.

Lemma append_cons (x : ascii) (a b : string) :
  String x a +:+ b = String x (a +:+ b).
Proof. reflexivity. Qed.

(** [+:+] is kept folded by [simpl]; this unfolds it on constructors. *)
Ltac str_simpl := simpl; rewrite ?append_cons, ?append_nil_l; simpl.

Section StrFacts.

Import Str.

Lemma append_assoc (a b c : string) : (a +:+ b) +:+ c = a +:+ (b +:+ c).
Proof. induction a as [|x a IH]; str_simpl; [reflexivity | now rewrite IH]. Qed.

Lemma append_nil_r (s : string) : s +:+ "" = s.
Proof. induction s as [|x s IH]; str_simpl; [reflexivity | now rewrite IH]. Qed.

Lemma concat_cons (x : string) (xs : list string) :
  String.concat "" (x :: xs) = x +:+ String.concat "" xs.
Proof.
  destruct xs as [|y ys]; simpl; [now rewrite append_nil_r | reflexivity].
Qed.

Lemma startswith_append (pre s : string) : startswith (pre +:+ s) pre = true.
Proof.
  induction pre as [|a pre IH]; str_simpl; [reflexivity |].
  now rewrite Ascii.eqb_refl, IH.
Qed.

Lemma startswith_spec (s pre : string) :
  startswith s pre = true <-> exists t, s = pre +:+ t.
Proof.
  split.
  - revert s. induction pre as [|a pre IH]; intros s H; simpl in *.
    + now exists s.
    + destruct s as [|b s]; [discriminate |].
      apply andb_true_iff in H as [Hab Hs].
      apply Ascii.eqb_eq in Hab as ->.
      destruct (IH _ Hs) as [t ->]. now exists t.
  - intros [t ->]. apply startswith_append.
Qed.

Lemma endswith_nil (suf : string) : endswith "" suf = String.eqb "" suf.
Proof. unfold endswith. apply orb_false_r. Qed.

Lemma endswith_String (a : ascii) (s suf : string) :
  endswith (String a s) suf = String.eqb (String a s) suf || endswith s suf.
Proof. reflexivity. Qed.

Lemma endswith_refl (s : string) : endswith s s = true.
Proof.
  destruct s as [|a s]; [reflexivity |].
  now rewrite endswith_String, String.eqb_refl.
Qed.

Lemma endswith_cons (a : ascii) (s suf : string) :
  endswith s suf = true -> endswith (String a s) suf = true.
Proof. intros H. rewrite endswith_String, H. apply orb_true_r. Qed.

Lemma endswith_append (p suf : string) : endswith (p +:+ suf) suf = true.
Proof.
  induction p as [|a p IH]; rewrite ?append_cons, ?append_nil_l.
  - apply endswith_refl.
  - now apply endswith_cons.
Qed.

Lemma endswith_spec (s suf : string) :
  endswith s suf = true <-> exists p, s = p +:+ suf.
Proof.
  split.
  - induction s as [|a s IH]; intros H.
    + rewrite endswith_nil in H. apply String.eqb_eq in H as <-. now exists "".
    + rewrite endswith_String in H. apply orb_true_iff in H as [H | H].
      * apply String.eqb_eq in H as <-. now exists "".
      * destruct (IH H) as [p ->]. now exists (String a p).
  - intros [p ->]. apply endswith_append.
Qed.

Lemma has_cr_append (a b : string) : has_cr (a +:+ b) = has_cr a || has_cr b.
Proof.
  induction a as [|x a IH]; str_simpl; [reflexivity |].
  now rewrite IH, orb_assoc.
Qed.

Lemma has_lf_append (a b : string) : has_lf (a +:+ b) = has_lf a || has_lf b.
Proof.
  induction a as [|x a IH]; str_simpl; [reflexivity |].
  now rewrite IH, orb_assoc.
Qed.

Lemma single_line_spec (s : string) :
  single_line s = true <-> has_lf s = false /\ has_cr s = false.
Proof.
  induction s as [|c s IH]; simpl; [tauto |].
  rewrite !andb_true_iff, !orb_false_iff, !negb_true_iff, IH. tauto.
Qed.

End StrFacts.

(** ** Text-mode reading and writing *)

Section TextIOFacts.

Import Str TextIO.

Lemma LF_neq_CR : Ascii.eqb LF CR = false.
Proof. reflexivity. Qed.

(** The lines of a text, put back together, are the text. *)
Lemma concat_splitlines (t : string) : String.concat "" (splitlines t) = t.
Proof.
  induction t as [|c r IH]; [reflexivity |].
  simpl. destruct (Ascii.eqb_spec c LF) as [-> | Hc].
  - now rewrite concat_cons, IH.
  - destruct (splitlines r) as [|l ls].
    + simpl in IH. now subst r.
    + rewrite concat_cons in *. rewrite append_cons. now rewrite IH.
Qed.

(** A first line that ends at the first line feed. *)
Lemma splitlines_first_line (body t : string) :
  has_lf body = false ->
  splitlines (body +:+ nl +:+ t) = (body +:+ nl) :: splitlines t.
Proof.
  induction body as [|c b IH]; intros H.
  - reflexivity.
  - simpl in H. apply orb_false_iff in H as [Hc Hb].
    rewrite !append_cons. simpl. rewrite Hc, (IH Hb). reflexivity.
Qed.

(** What follows the first line is again a sequence of lines. *)
Lemma splitlines_tail (d l0 : string) (rest : list string) :
  splitlines d = l0 :: rest ->
  exists d', d = l0 +:+ d' /\ rest = splitlines d'.
Proof.
  revert l0 rest. induction d as [|c r IH]; intros l0 rest H; [discriminate |].
  simpl in H. destruct (Ascii.eqb_spec c LF) as [-> | Hc].
  - injection H as <- <-. now exists r.
  - destruct (splitlines r) as [|l ls] eqn:E.
    + injection H as <- <-. exists "".
      pose proof (concat_splitlines r) as Hr. rewrite E in Hr. simpl in Hr.
      now subst r.
    + injection H as <- <-.
      destruct (IH _ _ eq_refl) as (d' & -> & ->). now exists d'.
Qed.

Lemma splitlines_nil (d : string) : splitlines d = [] -> d = "".
Proof.
  intros H. pose proof (concat_splitlines d) as Hd. now rewrite H in Hd.
Qed.

(** Decoded text holds no carriage return. *)
Lemma decode_from_no_cr (b : bool) (s : string) :
  has_cr (decode_from b s) = false.
Proof.
  revert b. induction s as [|c r IH]; intros b; [reflexivity |].
  simpl. destruct (Ascii.eqb_spec c CR) as [-> | Hc].
  - simpl. now rewrite ?LF_neq_CR, IH.
  - destruct (Ascii.eqb_spec c LF) as [-> | Hl].
    + destruct b; simpl; now rewrite ?LF_neq_CR, IH.
    + simpl. rewrite IH. apply Ascii.eqb_neq in Hc. now rewrite Hc.
Qed.

(** Writing text free of carriage returns and reading it back gives
    the text, whatever the line separator of the platform. *)
Lemma decode_encode (ls : newline) (t : string) :
  has_cr t = false ->
  decode_newlines (encode_newlines ls t) = t.
Proof.
  unfold decode_newlines.
  induction t as [|c r IH]; intros H; [reflexivity |].
  simpl in H. apply orb_false_iff in H as [Hc Hr].
  simpl. destruct (Ascii.eqb_spec c LF) as [-> | Hl].
  - destruct ls; unfold linesep_text, nl; rewrite !append_cons, append_nil_l;
      simpl; now rewrite (IH Hr).
  - simpl. rewrite Hc. apply Ascii.eqb_neq in Hl. now rewrite Hl, (IH Hr).
Qed.

(** On a line-feed platform, text free of carriage returns is written
    as it is. *)
Lemma encode_lf (t : string) : encode_newlines NL_LF t = t.
Proof.
  induction t as [|c r IH]; [reflexivity |].
  simpl. destruct (Ascii.eqb_spec c LF) as [-> | Hl].
  - unfold nl. now rewrite append_cons, append_nil_l, IH.
  - now rewrite IH.
Qed.

Lemma decode_no_cr (t : string) :
  has_cr t = false -> decode_newlines t = t.
Proof.
  intros H. rewrite <- (encode_lf t) at 1. now apply decode_encode.
Qed.

(** A line feed written is a line feed read back. *)
Lemma has_lf_decode_encode (ls : newline) (t : string) :
  has_lf t = true ->
  has_lf (decode_newlines (encode_newlines ls t)) = true.
Proof.
  unfold decode_newlines.
  induction t as [|c r IH]; intros H; [discriminate |].
  simpl in H. simpl. destruct (Ascii.eqb_spec c LF) as [-> | Hl].
  - destruct ls; unfold linesep_text, nl; rewrite !append_cons, append_nil_l;
      reflexivity.
  - simpl in H. simpl. destruct (Ascii.eqb_spec c CR) as [-> | Hc].
    + reflexivity.
    + apply Ascii.eqb_neq in Hl. rewrite Hl. simpl. rewrite Hl. now apply IH.
Qed.

(** In a text with a line feed, the first line ends with one. *)
Lemma splitlines_has_lf (d : string) :
  has_lf d = true ->
  exists l rest, splitlines d = l :: rest /\ endswith l nl = true.
Proof.
  induction d as [|c r IH]; intros H; [discriminate |].
  simpl in H. simpl. destruct (Ascii.eqb_spec c LF) as [-> | Hl].
  - exists nl, (splitlines r). split; [reflexivity | apply endswith_refl].
  - destruct (IH H) as (l & rest & -> & Hend).
    exists (String c l), rest. split; [reflexivity | now apply endswith_cons].
Qed.

End TextIOFacts.

(** ** The header line *)

Section HeaderFacts.

Import Str TextIO.

Variable env : Env.
Variables (filepath : string) (repo_root : PurePath).

Lemma relative_to_cases (p root : PurePath) :
  (exists rel, Pathlib.relative_to p root = Ok rel)
  \/ Pathlib.relative_to p root = Raise ValueError.
Proof.
  unfold Pathlib.relative_to.
  destruct (Bool.eqb _ _); [| now right].
  destruct (Pathlib.strip_prefix _ _); [left; eauto | now right].
Qed.

Lemma compute_header_inside (rel : PurePath) :
  Pathlib.relative_to (Path_resolve env filepath) repo_root = Ok rel ->
  compute_header env filepath repo_root
  = Ok ("# " +:+ Pathlib.as_posix rel +:+ nl).
Proof. intros H. unfold compute_header. now rewrite H. Qed.

Lemma compute_header_outside :
  Pathlib.relative_to (Path_resolve env filepath) repo_root = Raise ValueError ->
  compute_header env filepath repo_root = Raise AttributeError.
Proof. intros H. unfold compute_header. now rewrite H. Qed.

Lemma compute_header_shape (header : string) :
  compute_header env filepath repo_root = Ok header ->
  exists rel,
    Pathlib.relative_to (Path_resolve env filepath) repo_root = Ok rel
    /\ header = "# " +:+ Pathlib.as_posix rel +:+ nl.
Proof.
  intros H.
  destruct (relative_to_cases (Path_resolve env filepath) repo_root)
    as [[rel Hrel] | Hout].
  - rewrite (compute_header_inside _ Hrel) in H. injection H as <-. eauto.
  - rewrite (compute_header_outside Hout) in H. discriminate.
Qed.

End HeaderFacts.

(** ** The update of the list of lines *)

Section StampFacts.

Import Str TextIO.

Variable header : string.

Lemma stamp_lines_nil : stamp_lines header [] = [header].
Proof. reflexivity. Qed.

Lemma stamp_lines_replace (l0 : string) (rest : list string) :
  startswith l0 "# " = true -> l0 <> header ->
  stamp_lines header (l0 :: rest) = header :: rest.
Proof.
  intros Hs Hne. unfold stamp_lines. rewrite Hs.
  apply String.eqb_neq in Hne. now rewrite Hne.
Qed.

Lemma stamp_lines_keep (rest : list string) :
  startswith header "# " = true ->
  stamp_lines header (header :: rest) = header :: rest.
Proof.
  intros Hs. unfold stamp_lines. now rewrite Hs, String.eqb_refl.
Qed.

Lemma stamp_lines_insert (l0 : string) (rest : list string) :
  startswith l0 "# " = false ->
  stamp_lines header (l0 :: rest) = header :: l0 :: rest.
Proof. intros Hs. unfold stamp_lines. now rewrite Hs. Qed.

(** In every case the header comes first, followed by all the lines
    read or by all of them but the first. *)
Lemma stamp_lines_head (lines : list string) :
  stamp_lines header lines = header :: lines
  \/ exists l0 rest, lines = l0 :: rest /\ stamp_lines header lines = header :: rest.
Proof.
  destruct lines as [|l0 rest]; [now left |].
  unfold stamp_lines. destruct (startswith l0 "# "); [| now left].
  right. exists l0, rest. split; [reflexivity |].
  destruct (String.eqb_spec l0 header) as [-> | Hne]; reflexivity.
Qed.

Lemma stamp_lines_of_text (d : string) :
  exists d',
    stamp_lines header (splitlines d) = header :: splitlines d'
    /\ (has_cr d = false -> has_cr d' = false).
Proof.
  destruct (stamp_lines_head (splitlines d)) as [-> | (l0 & rest & E & ->)].
  - now exists d.
  - destruct (splitlines_tail _ _ _ E) as (d' & -> & ->).
    exists d'. split; [reflexivity |].
    rewrite has_cr_append. intros H. now apply orb_false_iff in H.
Qed.

End StampFacts.

Section ReadBack.

Import Str TextIO.

Lemma header_starts (s : string) : startswith ("# " +:+ s +:+ nl) "# " = true.
Proof. reflexivity. Qed.

(** A header on one line, written in front of lines that were read, is
    read back as the first line, followed by those lines. *)
Lemma readlines_writelines (ls : newline) (s d : string) :
  single_line s = true -> has_cr d = false ->
  readlines (writelines ls (("# " +:+ s +:+ nl) :: splitlines d))
  = ("# " +:+ s +:+ nl) :: splitlines d.
Proof.
  intros Hs Hd. apply single_line_spec in Hs as [Hlf Hcr].
  unfold readlines, writelines.
  rewrite concat_cons, concat_splitlines, decode_encode.
  - rewrite <- (append_assoc "# " s nl), append_assoc.
    apply splitlines_first_line. rewrite has_lf_append, Hlf. reflexivity.
  - rewrite !has_cr_append, Hcr, Hd. reflexivity.
Qed.

(** Whatever the header's path, the file written starts with a line
    that begins with the comment marker and ends with a line feed. *)
Lemma first_line_written (ls : newline) (s : string) (rest : list string) :
  exists l more,
    readlines (writelines ls (("# " +:+ s +:+ nl) :: rest)) = l :: more
    /\ startswith l "# " = true /\ endswith l nl = true.
Proof.
  unfold readlines, writelines. rewrite concat_cons, !append_assoc.
  set (t := s +:+ nl +:+ String.concat "" rest).
  assert (Ht : has_lf t = true).
  { unfold t. rewrite !has_lf_append. simpl. apply orb_true_r. }
  destruct (splitlines_has_lf _ (has_lf_decode_encode ls _ Ht))
    as (l & more & E & Hend).
  exists (String "#" (String " " l)), more. repeat split.
  - rewrite !append_cons, append_nil_l. unfold decode_newlines in *.
    simpl. unfold decode_newlines in E. now rewrite E.
  - now do 2 apply endswith_cons.
Qed.

End ReadBack.

(** ** Runs of [ensure_header] *)

Section EnsureHeaderFacts.

Import Str TextIO.

Variable env : Env.
Variables (filepath : string) (repo_root : PurePath).

Lemma ensure_header_ok (w : world) (header content : string) :
  compute_header env filepath repo_root = Ok header ->
  files w !! resolve env filepath = Some content ->
  ensure_header env filepath repo_root w
  = (Ok tt,
     {| files := <[resolve env filepath :=
                     writelines (linesep env)
                       (stamp_lines header (readlines content))]> (files w);
        opened := (opened w ++ [(resolve env filepath, ReadUpdate)])
                  ++ [(resolve env filepath, WriteTruncate)] |}).
Proof.
  intros Hh Hf. unfold ensure_header, bind, lift, open_readlines.
  rewrite Hh, Hf. reflexivity.
Qed.

Lemma ensure_header_raises (w : world) (e : exn) :
  compute_header env filepath repo_root = Raise e ->
  ensure_header env filepath repo_root w = (Raise e, w).
Proof. intros Hh. unfold ensure_header, bind, lift. now rewrite Hh. Qed.

Lemma ensure_header_no_file (w : world) (header : string) :
  compute_header env filepath repo_root = Ok header ->
  files w !! resolve env filepath = None ->
  not_utf8 env (resolve env filepath) = false ->
  ensure_header env filepath repo_root w = (Raise OSError, w).
Proof.
  intros Hh Hf Hu. unfold ensure_header, bind, lift, open_readlines.
  now rewrite Hh, Hf, Hu.
Qed.

Lemma ensure_header_not_utf8 (w : world) (header : string) :
  compute_header env filepath repo_root = Ok header ->
  files w !! resolve env filepath = None ->
  not_utf8 env (resolve env filepath) = true ->
  ensure_header env filepath repo_root w
  = (Raise UnicodeDecodeError,
     {| files := files w;
        opened := opened w ++ [(resolve env filepath, ReadUpdate)] |}).
Proof.
  intros Hh Hf Hu. unfold ensure_header, bind, lift, open_readlines.
  now rewrite Hh, Hf, Hu.
Qed.

(** A run either stamps the file or raises and leaves the content of
    every file as it was. *)
Lemma ensure_header_cases (w : world) :
  (exists header content,
      compute_header env filepath repo_root = Ok header
      /\ files w !! resolve env filepath = Some content)
  \/ (exists e w',
         ensure_header env filepath repo_root w = (Raise e, w')
         /\ files w' = files w
         /\ exists new,
              opened w' = opened w ++ new
              /\ Forall (fun o => fst o = resolve env filepath) new).
Proof.
  destruct (compute_header env filepath repo_root) as [header | e] eqn:Hh.
  - destruct (files w !! resolve env filepath) as [content |] eqn:Hf.
    + left. eauto.
    + right. destruct (not_utf8 env (resolve env filepath)) eqn:Hu.
      * eexists _, _. split; [now apply ensure_header_not_utf8 with header |].
        cbn [files opened]. split; [reflexivity |].
        eexists. split; [reflexivity |]. now repeat constructor.
      * exists OSError, w. split; [now apply ensure_header_no_file with header |].
        split; [reflexivity |]. exists []. now rewrite app_nil_r.
  - right. exists e, w. split; [now apply ensure_header_raises |].
    split; [reflexivity |]. exists []. now rewrite app_nil_r.
Qed.

Lemma ensure_header_raise_files (w w' : world) (e : exn) :
  ensure_header env filepath repo_root w = (Raise e, w') ->
  files w' = files w.
Proof.
  intros Hrun.
  destruct (ensure_header_cases w)
    as [(header & content & Hh & Hf) | (e0 & w0 & He & Hw & _)].
  - rewrite (ensure_header_ok w header content Hh Hf) in Hrun. discriminate.
  - congruence.
Qed.

(** What a run does to the files depends on the files only, not on the
    log of opened files. *)
Lemma ensure_header_files_only (w w2 : world) :
  files w2 = files w ->
  fst (ensure_header env filepath repo_root w2)
  = fst (ensure_header env filepath repo_root w)
  /\ files (snd (ensure_header env filepath repo_root w2))
     = files (snd (ensure_header env filepath repo_root w)).
Proof.
  intros E.
  destruct (compute_header env filepath repo_root) as [header | e] eqn:Hh.
  - destruct (files w !! resolve env filepath) as [content |] eqn:Hf.
    + rewrite (ensure_header_ok w header content Hh Hf).
      rewrite (ensure_header_ok w2 header content Hh) by now rewrite E.
      cbn [fst snd files]. now rewrite E.
    + destruct (not_utf8 env (resolve env filepath)) eqn:Hu.
      * rewrite (ensure_header_not_utf8 w header Hh Hf Hu).
        rewrite (ensure_header_not_utf8 w2 header Hh) by now rewrite ?E.
        now split.
      * rewrite (ensure_header_no_file w header Hh Hf Hu).
        rewrite (ensure_header_no_file w2 header Hh) by now rewrite ?E.
        now split.
  - rewrite !(ensure_header_raises _ e Hh). now split.
Qed.

End EnsureHeaderFacts.

(** ** The claims about [ensure_header] *)

Section EnsureHeaderClaims.

Import Str TextIO.

(** C1. For a file the stamper processes, with [lines] the lines it
    reads (none for an empty file): when the first line starts with the
    comment marker and differs from the header [# <relative-path>], the
    list written is the header followed by the remaining lines, unchanged
    and in order; when the first line does not start with the marker, or
    the file is empty, the list written is the header followed by every
    line read.  When the header is a single line, reading the file back
    gives that list. *)
Theorem ensure_header_replaces_or_inserts
    (env : Env) (filepath : string) (repo_root rel : PurePath)
    (w : world) (content : string) :
  Pathlib.relative_to (Path_resolve env filepath) repo_root = Ok rel ->
  files w !! resolve env filepath = Some content ->
  let header := "# " +:+ Pathlib.as_posix rel +:+ nl in
  let lines := readlines content in
  let p := resolve env filepath in
  exists lines',
    ensure_header env filepath repo_root w
    = (Ok tt,
       {| files := <[p := writelines (linesep env) lines']> (files w);
          opened := opened w ++ [(p, ReadUpdate); (p, WriteTruncate)] |})
    /\ (forall l0 rest,
           lines = l0 :: rest -> startswith l0 "# " = true ->
           l0 <> header -> lines' = header :: rest)
    /\ (forall l0 rest,
           lines = l0 :: rest -> startswith l0 "# " = false ->
           lines' = header :: l0 :: rest)
    /\ (lines = [] -> lines' = [header])
    /\ (single_line (Pathlib.as_posix rel) = true ->
        readlines (writelines (linesep env) lines') = lines').
Proof.
  intros Hrel Hf header lines p.
  exists (stamp_lines header lines). repeat split.
  - rewrite (ensure_header_ok env filepath repo_root w header content);
      [| now apply compute_header_inside | assumption].
    now rewrite <- app_assoc.
  - intros l0 rest -> Hs Hne. now apply stamp_lines_replace.
  - intros l0 rest -> Hs. now apply stamp_lines_insert.
  - now intros ->.
  - intros Hone.
    destruct (stamp_lines_of_text header (decode_newlines content))
      as (d' & E & Hcr).
    fold (readlines content) in E. fold lines in E. rewrite E.
    apply readlines_writelines; [assumption |].
    apply Hcr, decode_from_no_cr.
Qed.

Lemma ensure_header_replaces_or_inserts_witness :
  Pathlib.relative_to (Path_resolve Sample.env_in_repo "src/a.py") Sample.root
  = Ok {| anchored := false; parts := ["src"; "a.py"] |}
  /\ files Sample.stale !! Sample.a_py
     = Some ("# old/a.py" +:+ nl +:+ "x = 1" +:+ nl)
  /\ exists lines',
       ensure_header Sample.env_in_repo "src/a.py" Sample.root Sample.stale
       = (Ok tt,
          {| files := <[Sample.a_py := writelines NL_LF lines']>
                        (files Sample.stale);
             opened := [(Sample.a_py, ReadUpdate);
                        (Sample.a_py, WriteTruncate)] |})
       /\ lines' = ["# src/a.py" +:+ nl; "x = 1" +:+ nl].
Proof.
  split; [reflexivity |]. split; [reflexivity |].
  destruct (ensure_header_replaces_or_inserts Sample.env_in_repo "src/a.py"
              Sample.root {| anchored := false; parts := ["src"; "a.py"] |}
              Sample.stale ("# old/a.py" +:+ nl +:+ "x = 1" +:+ nl)
              eq_refl eq_refl) as (lines' & Hrun & Hrep & _).
  exists lines'. split; [exact Hrun |].
  apply (Hrep ("# old/a.py" +:+ nl) ["x = 1" +:+ nl]).
  - reflexivity.
  - reflexivity.
  - discriminate.
Defined.

(** C2. A file whose resolved path is not below the repository root:
    [relative_to] raises [ValueError], [rel_path] is bound to the
    string [path.name], and [rel_path.as_posix()] raises
    [AttributeError]; the run stops there and no file is touched. *)
Theorem ensure_header_outside_root_raises
    (env : Env) (filepath : string) (repo_root : PurePath) (w : world) :
  Pathlib.relative_to (Path_resolve env filepath) repo_root
  = Raise ValueError ->
  ensure_header env filepath repo_root w = (Raise AttributeError, w).
Proof.
  intros Hout. apply ensure_header_raises.
  now apply compute_header_outside.
Qed.

Lemma ensure_header_outside_root_raises_witness :
  Pathlib.relative_to (Path_resolve Sample.env_in_repo "/tmp/t.py") Sample.root
  = Raise ValueError
  /\ files Sample.outside !! Sample.tmp_py = Some ("x = 1" +:+ nl)
  /\ ensure_header Sample.env_in_repo "/tmp/t.py" Sample.root Sample.outside
     = (Raise AttributeError, Sample.outside).
Proof.
  split; [reflexivity |]. split; [reflexivity |].
  apply (ensure_header_outside_root_raises Sample.env_in_repo "/tmp/t.py"
           Sample.root Sample.outside).
  reflexivity.
Defined.

(** C3, as stated, fails for a file whose name holds a line feed: the
    header then spans two lines, the second run takes the first of them
    for a stale header, and the file grows by one line at every run. *)
Lemma second_run_changes_file :
  files (snd (ensure_header Sample.env_in_repo Sample.odd_name Sample.root
                Sample.with_odd_name)) !! Sample.odd_py
  = Some ("# a" +:+ nl +:+ "b.py" +:+ nl +:+ "x = 1" +:+ nl)
  /\ files (snd (ensure_header Sample.env_in_repo Sample.odd_name Sample.root
                   (snd (ensure_header Sample.env_in_repo Sample.odd_name
                           Sample.root Sample.with_odd_name)))) !! Sample.odd_py
     = Some ("# a" +:+ nl +:+ "b.py" +:+ nl +:+ "b.py" +:+ nl
             +:+ "x = 1" +:+ nl).
Proof. split; vm_compute; reflexivity. Qed.

(** C3, amended. When the relative path of the file holds neither a
    line feed nor a carriage return, a second run of the stamper with the
    same root leaves every file as the first run left it. *)
Theorem ensure_header_idempotent
    (env : Env) (filepath : string) (repo_root : PurePath) (w : world) :
  (forall rel,
      Pathlib.relative_to (Path_resolve env filepath) repo_root = Ok rel ->
      single_line (Pathlib.as_posix rel) = true) ->
  files (snd (ensure_header env filepath repo_root
                (snd (ensure_header env filepath repo_root w))))
  = files (snd (ensure_header env filepath repo_root w)).
Proof.
  intros Hone.
  destruct (ensure_header_cases env filepath repo_root w)
    as [(header & content & Hh & Hf) | (e & w1 & He & Hw1 & _)].
  - rewrite (ensure_header_ok env filepath repo_root w header content Hh Hf).
    cbn [snd].
    destruct (compute_header_shape env filepath repo_root header Hh)
      as (rel & Hrel & ->).
    destruct (stamp_lines_of_text ("# " +:+ Pathlib.as_posix rel +:+ nl)
                (decode_newlines content)) as (d' & E & Hcr).
    fold (readlines content) in E. rewrite E.
    erewrite ensure_header_ok;
      [| exact Hh | cbn [files]; apply lookup_insert_eq].
    cbn [snd files].
    rewrite readlines_writelines;
      [| now apply Hone | apply Hcr, decode_from_no_cr].
    rewrite stamp_lines_keep by apply header_starts.
    apply insert_insert_eq.
  - rewrite He. cbn [snd].
    destruct (ensure_header_files_only env filepath repo_root w w1 Hw1)
      as [_ Hfiles].
    now rewrite Hfiles, He.
Qed.

Lemma ensure_header_idempotent_witness :
  files (snd (ensure_header Sample.env_in_repo "src/a.py" Sample.root
                (snd (ensure_header Sample.env_in_repo "src/a.py" Sample.root
                        Sample.stale))))
  = files (snd (ensure_header Sample.env_in_repo "src/a.py" Sample.root
                  Sample.stale)).
Proof.
  apply (ensure_header_idempotent Sample.env_in_repo "src/a.py" Sample.root
           Sample.stale).
  intros rel H. vm_compute in H. injection H as <-. reflexivity.
Defined.

(** C5, as stated, fails on a file that has the right header and a
    later line ending in CR LF: where the line separator is a line feed
    that line is written back with a bare line feed, and where it is CR LF
    the header line is written back with CR LF. *)
Lemma header_present_not_byte_identical :
  compute_header Sample.env_in_repo "src/a.py" Sample.root
  = Ok ("# src/a.py" +:+ nl)
  /\ files Sample.with_crlf !! Sample.a_py = Some Sample.crlf_text
  /\ startswith Sample.crlf_text ("# src/a.py" +:+ nl) = true
  /\ hd_error (readlines Sample.crlf_text) = Some ("# src/a.py" +:+ nl)
  /\ files (snd (ensure_header Sample.env_in_repo "src/a.py" Sample.root
                   Sample.with_crlf)) !! Sample.a_py
     = Some ("# src/a.py" +:+ nl +:+ "x = 1" +:+ nl)
  /\ files (snd (ensure_header Sample.env_in_repo "src/a.py" Sample.root
                   Sample.with_crlf)) !! Sample.a_py
     <> files Sample.with_crlf !! Sample.a_py
  /\ files (snd (ensure_header Sample.env_crlf "src/a.py" Sample.root
                   Sample.with_crlf)) !! Sample.a_py
     = Some ("# src/a.py" +:+ String CR nl +:+ "x = 1" +:+ String CR nl).
Proof.
  repeat split; try (vm_compute; reflexivity).
  vm_compute. discriminate.
Qed.

(** C5, amended. For a file whose first line is already the header,
    the stamper writes back the lines it read: the new content is the old
    one with every line ending turned into the platform's separator, no
    other file changes, and the content is the same byte for byte when the
    old content already had that form, which on a line-feed platform is
    every content without a carriage return. *)
Theorem header_present_keeps_lines
    (env : Env) (filepath : string) (repo_root : PurePath) (w : world)
    (header content : string) (rest : list string) :
  compute_header env filepath repo_root = Ok header ->
  files w !! resolve env filepath = Some content ->
  readlines content = header :: rest ->
  exists w',
    ensure_header env filepath repo_root w = (Ok tt, w')
    /\ files w'
       = <[resolve env filepath :=
             encode_newlines (linesep env) (decode_newlines content)]> (files w)
    /\ (encode_newlines (linesep env) (decode_newlines content) = content ->
        files w' = files w)
    /\ (linesep env = NL_LF -> has_cr content = false -> files w' = files w).
Proof.
  intros Hh Hf Hl.
  eexists. split; [exact (ensure_header_ok env filepath repo_root w header content Hh Hf) |].
  cbn [files].
  assert (Hw : writelines (linesep env) (stamp_lines header (readlines content))
               = encode_newlines (linesep env) (decode_newlines content)).
  { destruct (compute_header_shape env filepath repo_root header Hh)
      as (rel & _ & ->).
    rewrite Hl, stamp_lines_keep by apply header_starts.
    rewrite <- Hl. unfold writelines, readlines.
    now rewrite concat_splitlines. }
  rewrite Hw. split; [reflexivity |]. split.
  - intros ->. now apply insert_id.
  - intros -> Hcr. rewrite encode_lf, decode_no_cr by assumption.
    now apply insert_id.
Qed.

Lemma header_present_keeps_lines_witness :
  exists w',
    ensure_header Sample.env_in_repo "src/a.py" Sample.root Sample.with_crlf
    = (Ok tt, w')
    /\ files w'
       = <[Sample.a_py := "# src/a.py" +:+ nl +:+ "x = 1" +:+ nl]>
           (files Sample.with_crlf).
Proof.
  destruct (header_present_keeps_lines Sample.env_in_repo "src/a.py"
              Sample.root Sample.with_crlf ("# src/a.py" +:+ nl)
              Sample.crlf_text ["x = 1" +:+ nl] eq_refl eq_refl eq_refl)
    as (w' & Hrun & Hfiles & _).
  exists w'. split; [exact Hrun | exact Hfiles].
Defined.

Lemma marked_written (ls : newline) (s : string) (rest : list string) :
  marked (writelines ls (("# " +:+ s +:+ nl) :: rest)) = true.
Proof.
  unfold marked.
  destruct (first_line_written ls s rest) as (l & more & E & Hs & He).
  rewrite E, Hs, He.
  destruct (String.eqb_spec (writelines ls (("# " +:+ s +:+ nl) :: rest)) "")
    as [Hnil | _]; [| reflexivity].
  rewrite Hnil in E. discriminate.
Qed.

Lemma ensure_header_marks
    (env : Env) (filepath : string) (repo_root : PurePath) (w w' : world) :
  ensure_header env filepath repo_root w = (Ok tt, w') ->
  exists content,
    files w' !! resolve env filepath = Some content
    /\ marked content = true.
Proof.
  intros Hrun.
  destruct (ensure_header_cases env filepath repo_root w)
    as [(header & content & Hh & Hf) | (e & w1 & He & _)].
  - rewrite (ensure_header_ok env filepath repo_root w header content Hh Hf)
      in Hrun.
    injection Hrun as <-. cbn [files]. eexists. split.
    + apply lookup_insert_eq.
    + destruct (compute_header_shape env filepath repo_root header Hh)
        as (rel & _ & ->).
      destruct (stamp_lines_head ("# " +:+ Pathlib.as_posix rel +:+ nl)
                  (readlines content)) as [-> | (l0 & rest & _ & ->)];
        apply marked_written.
  - rewrite He in Hrun. discriminate.
Qed.

(** C9. After any number of successive runs of [ensure_header] on a
    file, the first one included, when the last run completes the file is
    not empty and its first line starts with the comment marker and ends
    with a line feed. *)
Theorem stamped_file_stays_marked
    (env : Env) (filepath : string) (repo_root : PurePath)
    (n : nat) (w w' : world) :
  repeat_runs env filepath repo_root (S n) w = (Ok tt, w') ->
  exists content l more,
    files w' !! resolve env filepath = Some content
    /\ content <> ""
    /\ readlines content = l :: more
    /\ startswith l "# " = true
    /\ endswith l nl = true.
Proof.
  intros Hrun. cbn [repeat_runs] in Hrun. unfold bind in Hrun.
  destruct (repeat_runs env filepath repo_root n w) as [[[] | e] w1];
    [| discriminate].
  destruct (ensure_header_marks env filepath repo_root w1 w' Hrun)
    as (content & Hf & Hm).
  unfold marked in Hm. apply andb_true_iff in Hm as [Hne Hm].
  destruct (readlines content) as [|l more] eqn:E; [discriminate |].
  apply andb_true_iff in Hm as [Hs He].
  exists content, l, more. repeat split; try assumption.
  intros ->. discriminate.
Qed.

Lemma stamped_file_stays_marked_witness :
  exists content l more,
    files (snd (repeat_runs Sample.env_in_repo "src/a.py" Sample.root 2
                  Sample.with_shebang)) !! Sample.a_py = Some content
    /\ content <> ""
    /\ readlines content = l :: more
    /\ startswith l "# " = true
    /\ endswith l nl = true.
Proof.
  apply (stamped_file_stays_marked Sample.env_in_repo "src/a.py" Sample.root
           1 Sample.with_shebang).
  vm_compute. reflexivity.
Defined.

(** C10. A first line that starts with [#] but not with the comment
    marker, such as a shebang line, is not taken for a header: the header
    is written above it and every line read is kept, so that line is no
    longer the first line of the file. *)
Theorem shebang_is_pushed_down
    (env : Env) (filepath : string) (repo_root rel : PurePath)
    (w : world) (content l0 : string) (rest : list string) :
  Pathlib.relative_to (Path_resolve env filepath) repo_root = Ok rel ->
  files w !! resolve env filepath = Some content ->
  readlines content = l0 :: rest ->
  startswith l0 "#" = true ->
  startswith l0 "# " = false ->
  let header := "# " +:+ Pathlib.as_posix rel +:+ nl in
  let written := writelines (linesep env) (header :: l0 :: rest) in
  exists w',
    ensure_header env filepath repo_root w = (Ok tt, w')
    /\ files w' !! resolve env filepath = Some written
    /\ hd_error (readlines written) <> Some l0
    /\ (single_line (Pathlib.as_posix rel) = true ->
        readlines written = header :: l0 :: rest).
Proof.
  intros Hrel Hf Hl Hhash Hmark header written.
  eexists. split.
  { apply (ensure_header_ok env filepath repo_root w header content);
      [now apply compute_header_inside | assumption]. }
  cbn [files]. rewrite Hl, stamp_lines_insert by assumption.
  split; [apply lookup_insert_eq |]. split.
  - destruct (first_line_written (linesep env) (Pathlib.as_posix rel)
                (l0 :: rest)) as (l & more & E & Hs & _).
    unfold written, header. rewrite E. cbn [hd_error].
    intros [= ->]. congruence.
  - intros Hone. unfold written, header. rewrite <- Hl.
    apply readlines_writelines; [assumption | apply decode_from_no_cr].
Qed.

Lemma shebang_is_pushed_down_witness :
  exists w',
    ensure_header Sample.env_in_repo "src/a.py" Sample.root
      Sample.with_shebang = (Ok tt, w')
    /\ files w' !! Sample.a_py
       = Some ("# src/a.py" +:+ nl +:+ Sample.shebang_line +:+ "x = 1" +:+ nl).
Proof.
  destruct (shebang_is_pushed_down Sample.env_in_repo "src/a.py" Sample.root
              {| anchored := false; parts := ["src"; "a.py"] |}
              Sample.with_shebang (Sample.shebang_line +:+ "x = 1" +:+ nl)
              Sample.shebang_line ["x = 1" +:+ nl]
              eq_refl eq_refl eq_refl eq_refl eq_refl)
    as (w' & Hrun & Hfile & _).
  exists w'. split; [exact Hrun | exact Hfile].
Defined.

End EnsureHeaderClaims.

(** ** Runs of [main] *)

Section MainFacts.

Import Str TextIO.

Variable env : Env.
Variable repo_root : PurePath.

Lemma process_arg_skips (file : string) (w : world) :
  endswith file ".py" = false ->
  process_arg env repo_root file w = (Ok tt, w).
Proof. intros H. unfold process_arg. now rewrite H. Qed.

Lemma for_each_skip {A} (body : A -> M unit) (x : A) (before after : list A) :
  (forall w, body x w = (Ok tt, w)) ->
  forall w,
    for_each body (before ++ x :: after) w = for_each body (before ++ after) w.
Proof.
  intros Hx. induction before as [|y before IH]; intros w; simpl.
  - unfold bind. now rewrite Hx.
  - unfold bind. destruct (body y w) as [[[] | e] w1]; [apply IH | reflexivity].
Qed.

(** Stamping one file keeps every other argument stampable: no file
    disappears from the store. *)
Lemma ensure_header_keeps_files (filepath : string) (w : world)
    (q : list string) :
  is_Some (files w !! q) ->
  is_Some (files (snd (ensure_header env filepath repo_root w)) !! q).
Proof.
  intros Hq.
  destruct (ensure_header_cases env filepath repo_root w)
    as [(header & content & Hh & Hf) | (e & w1 & He & Hw1 & _)].
  - rewrite (ensure_header_ok env filepath repo_root w header content Hh Hf).
    cbn [snd files]. rewrite lookup_insert. now case_decide.
  - rewrite He. cbn [snd]. now rewrite Hw1.
Qed.

Lemma stampable_after (filepath file : string) (w : world) :
  stampable env repo_root w file = true ->
  stampable env repo_root
    (snd (ensure_header env filepath repo_root w)) file = true.
Proof.
  unfold stampable. destruct (endswith file ".py"); [| reflexivity].
  cbn [negb orb].
  destruct (files w !! resolve env file) as [c |] eqn:E; [| discriminate].
  destruct (ensure_header_keeps_files filepath w (resolve env file))
    as [c' ->]; [now rewrite E | trivial].
Qed.

Lemma process_arg_stampable (file : string) (w : world) :
  stampable env repo_root w file = true ->
  exists w', process_arg env repo_root file w = (Ok tt, w').
Proof.
  unfold stampable, process_arg.
  destruct (endswith file ".py"); [| now exists w].
  cbn [negb orb].
  destruct (files w !! resolve env file) as [c |] eqn:Hf; [| discriminate].
  destruct (Pathlib.relative_to _ _) as [rel | e] eqn:Hrel; [| discriminate].
  intros _. eexists.
  apply ensure_header_ok with (content := c);
    [now apply compute_header_inside with (rel := rel) | assumption].
Qed.

Lemma process_arg_keeps_stampable (file other : string) (w : world) :
  stampable env repo_root w other = true ->
  stampable env repo_root
    (snd (process_arg env repo_root file w)) other = true.
Proof.
  unfold process_arg. destruct (endswith file ".py").
  - apply stampable_after.
  - trivial.
Qed.

(** When every argument is stampable the loop runs to its end. *)
Lemma for_each_stampable (args : list string) (w : world) :
  forallb (stampable env repo_root w) args = true ->
  exists w', for_each (process_arg env repo_root) args w = (Ok tt, w').
Proof.
  revert w. induction args as [|file args IH]; intros w H; simpl.
  - now exists w.
  - simpl in H. apply andb_true_iff in H as [Hfile Hargs].
    destruct (process_arg_stampable file w Hfile) as [w1 Hw1].
    unfold bind. rewrite Hw1. apply IH.
    apply forallb_forall. intros other Hin.
    replace w1 with (snd (process_arg env repo_root file w))
      by now rewrite Hw1.
    apply process_arg_keeps_stampable.
    revert other Hin. now apply forallb_forall.
Qed.

End MainFacts.

(** ** The claims about [main] *)

Section MainClaims.

Import Str TextIO.

Lemma main_with_root (env : Env) (repo_root : PurePath)
    (argv : list string) (w : world) :
  get_repo_root env = Ok repo_root ->
  main env argv w
  = (for_each (process_arg env repo_root) (drop 1 argv) ;;; ret 0) w.
Proof. intros H. unfold main, bind at 1, lift. now rewrite H. Qed.

Lemma main_completes (env : Env) (repo_root : PurePath)
    (argv : list string) (w : world) :
  get_repo_root env = Ok repo_root ->
  forallb (stampable env repo_root w) (drop 1 argv) = true ->
  exists w', run_stamper env argv w = (Exit 0, w').
Proof.
  intros Hroot Hargs. unfold run_stamper.
  rewrite (main_with_root env repo_root argv w Hroot). unfold bind.
  destruct (for_each_stampable env repo_root _ w Hargs) as [w' ->].
  now exists w'.
Qed.

(** C6. When the query for the repository root fails, that is when
    [git rev-parse --show-toplevel] ends with a non-zero code,
    [get_repo_root] raises nothing and returns the working directory;
    [main] goes on with it as the root, and exits with code 0 when every
    argument is one the loop gets past. *)
Theorem root_lookup_failure_falls_back
    (env : Env) (argv : list string) (w : world) :
  check_output (git_show_toplevel env) = Raise CalledProcessError ->
  get_repo_root env = Ok (Path_cwd env)
  /\ main env argv w
     = (for_each (process_arg env (Path_cwd env)) (drop 1 argv) ;;; ret 0) w
  /\ (forallb (stampable env (Path_cwd env) w) (drop 1 argv) = true ->
      exists w', run_stamper env argv w = (Exit 0, w')).
Proof.
  intros Hfail.
  assert (Hroot : get_repo_root env = Ok (Path_cwd env)).
  { unfold get_repo_root. now rewrite Hfail. }
  split; [exact Hroot |]. split.
  - now apply main_with_root.
  - now apply main_completes.
Qed.

Lemma root_lookup_failure_falls_back_witness :
  check_output (git_show_toplevel Sample.env_no_repo)
  = Raise CalledProcessError
  /\ get_repo_root Sample.env_no_repo = Ok Sample.root
  /\ exists w',
       run_stamper Sample.env_no_repo Sample.argv_a Sample.stale = (Exit 0, w').
Proof.
  split; [reflexivity |].
  destruct (root_lookup_failure_falls_back Sample.env_no_repo Sample.argv_a
              Sample.stale eq_refl) as (Hroot & _ & Hrun).
  split; [exact Hroot |].
  apply Hrun. vm_compute. reflexivity.
Defined.

(** C7, as stated, fails when an argument names a file that cannot be
    opened: the exception of [open] is not caught and the interpreter
    ends with status 1. *)
Lemma missing_file_exit_code :
  run_stamper Sample.env_in_repo Sample.argv_missing Sample.stale
  = (Traceback OSError, Sample.stale)
  /\ exit_code (fst (run_stamper Sample.env_in_repo Sample.argv_missing
                       Sample.stale)) <> 0.
Proof. split; [vm_compute; reflexivity | vm_compute; discriminate]. Qed.

(** C7, amended. [main] returns no code but 0: an invocation either
    exits with code 0 or ends on an exception nobody caught; it exits with
    code 0 whenever the root lookup raises nothing and every argument is
    skipped or names a file of the store, that is a file that can be
    opened and holds UTF-8 text, which lies below the root. *)
Theorem stamper_exit_status
    (env : Env) (argv : list string) (w : world) :
  (fst (run_stamper env argv w) = Exit 0
   \/ exists e, fst (run_stamper env argv w) = Traceback e)
  /\ (forall repo_root,
         get_repo_root env = Ok repo_root ->
         forallb (stampable env repo_root w) (drop 1 argv) = true ->
         fst (run_stamper env argv w) = Exit 0).
Proof.
  split.
  - unfold run_stamper, main, bind, lift, ret.
    destruct (get_repo_root env) as [root | e]; [| right; now exists e].
    destruct (for_each _ _ w) as [[[] | e] w'];
      [now left | right; now exists e].
  - intros repo_root Hroot Hargs.
    destruct (main_completes env repo_root argv w Hroot Hargs) as [w' ->].
    reflexivity.
Qed.

Lemma stamper_exit_status_witness :
  get_repo_root Sample.env_in_repo = Ok Sample.root
  /\ forallb (stampable Sample.env_in_repo Sample.root Sample.stale)
       (drop 1 Sample.argv_a) = true
  /\ fst (run_stamper Sample.env_in_repo Sample.argv_a Sample.stale) = Exit 0.
Proof.
  split; [reflexivity |]. split; [vm_compute; reflexivity |].
  apply (proj2 (stamper_exit_status Sample.env_in_repo Sample.argv_a
                  Sample.stale) Sample.root).
  - reflexivity.
  - vm_compute. reflexivity.
Defined.

(** C8. An argument that does not end in [.py] is skipped: the body of
    the loop returns at once with the files and the log of opened files
    as they were, and a run gives the same result and leaves the same
    state as the run without that argument. *)
Theorem non_py_argument_is_skipped
    (env : Env) (script file : string) (before after : list string)
    (w : world) :
  endswith file ".py" = false ->
  (forall repo_root w0, process_arg env repo_root file w0 = (Ok tt, w0))
  /\ main env (script :: before ++ file :: after) w
     = main env (script :: before ++ after) w.
Proof.
  intros Hsuffix. split.
  - intros repo_root w0. now apply process_arg_skips.
  - unfold main, bind at 1 3, lift.
    destruct (get_repo_root env) as [root | e]; [| reflexivity].
    unfold bind. cbn [drop].
    rewrite (for_each_skip (process_arg env root) file before after);
      [reflexivity |].
    intros w0. now apply process_arg_skips.
Qed.

Lemma non_py_argument_is_skipped_witness :
  endswith "README.md" ".py" = false
  /\ main Sample.env_in_repo Sample.argv_a Sample.stale
     = main Sample.env_in_repo [Sample.script; "src/a.py"] Sample.stale.
Proof.
  split; [reflexivity |].
  apply (non_py_argument_is_skipped Sample.env_in_repo Sample.script
           "README.md" [] ["src/a.py"] Sample.stale).
  reflexivity.
Defined.

End MainClaims.

(** ** The claim about the branch guard *)

Section BranchGuard.

Import Str.

(** C4. Given the branch name the query returns, trimmed: when it is
    [main] or [master] the guard exits with code 1 and prints the refusal,
    which contains the name; for every other name it exits with code 0
    and prints nothing.  So it exits with code 1 exactly on those two
    names. *)
Theorem block_branch_guard (env : Env) (out : string) :
  check_output (git_abbrev_ref_head env) = Ok out ->
  let branch := strip out in
  (branch = "main" \/ branch = "master" ->
   block_branch env = (Exit 1, refusal branch +:+ nl)
   /\ contains (refusal branch +:+ nl) branch = true)
  /\ (~ (branch = "main" \/ branch = "master") ->
      block_branch env = (Exit 0, ""))
  /\ (fst (block_branch env) = Exit 1 <->
      branch = "main" \/ branch = "master").
Proof.
  intros Hout branch. unfold block_branch. rewrite Hout. fold branch.
  destruct (String.eqb_spec branch "main") as [Hm | Hm];
    [| destruct (String.eqb_spec branch "master") as [Hs | Hs]];
    cbn [orb fst].
  - repeat split; try tauto. rewrite Hm. reflexivity.
  - repeat split; try tauto. rewrite Hs. reflexivity.
  - repeat split; try tauto. discriminate.
Qed.

Lemma block_branch_guard_witness :
  check_output (git_abbrev_ref_head Sample.env_on_main) = Ok ("main" +:+ nl)
  /\ block_branch Sample.env_on_main = (Exit 1, refusal "main" +:+ nl)
  /\ contains (refusal "main" +:+ nl) "main" = true.
Proof.
  split; [reflexivity |].
  apply (block_branch_guard Sample.env_on_main ("main" +:+ nl) eq_refl).
  left. reflexivity.
Defined.

End BranchGuard.

(** * Further properties of the two scripts *)

(** ** What a run of [ensure_header] touches *)

Section EnsureHeaderFrame.

Import Str TextIO.

Variable env : Env.
Variables (filepath : string) (repo_root : PurePath).

Lemma ensure_header_world (w : world) :
  (exists content new,
      files w !! resolve env filepath = Some content
      /\ files (snd (ensure_header env filepath repo_root w))
         = <[resolve env filepath := new]> (files w))
  \/ files (snd (ensure_header env filepath repo_root w)) = files w.
Proof.
  destruct (ensure_header_cases env filepath repo_root w)
    as [(header & content & Hh & Hf) | (e & w1 & He & Hw1 & _)].
  - left. exists content. eexists. split; [assumption |].
    now rewrite (ensure_header_ok env filepath repo_root w header content Hh Hf).
  - right. now rewrite He.
Qed.

Lemma ensure_header_other_files (w : world) (q : list string) :
  q <> resolve env filepath ->
  files (snd (ensure_header env filepath repo_root w)) !! q = files w !! q.
Proof.
  intros Hq. destruct (ensure_header_world w) as [(c & new & _ & ->) | ->];
    [| reflexivity].
  now apply lookup_insert_ne.
Qed.

Lemma ensure_header_dom (w : world) :
  dom (files (snd (ensure_header env filepath repo_root w))) = dom (files w).
Proof.
  destruct (ensure_header_world w) as [(c & new & Hc & ->) | ->];
    [| reflexivity].
  rewrite dom_insert_L.
  assert (Hin : resolve env filepath ∈ dom (files w))
    by (apply elem_of_dom; eauto).
  apply subseteq_union_1_L. now apply singleton_subseteq_l.
Qed.

Lemma ensure_header_log (w : world) :
  exists new,
    opened (snd (ensure_header env filepath repo_root w)) = opened w ++ new
    /\ Forall (fun o => fst o = resolve env filepath) new.
Proof.
  destruct (ensure_header_cases env filepath repo_root w)
    as [(header & content & Hh & Hf) | (e & w1 & He & _ & Hlog)].
  - rewrite (ensure_header_ok env filepath repo_root w header content Hh Hf).
    cbn [snd opened]. exists [(resolve env filepath, ReadUpdate);
                             (resolve env filepath, WriteTruncate)].
    split; [now rewrite <- app_assoc | now repeat constructor].
  - now rewrite He.
Qed.

End EnsureHeaderFrame.

(** X1. A run of [ensure_header], completed or not, changes no file but
    the one it is given, and neither creates nor removes a file. *)
Theorem ensure_header_touches_one_file
    (env : Env) (filepath : string) (repo_root : PurePath) (w : world) :
  (forall q, q <> resolve env filepath ->
             files (snd (ensure_header env filepath repo_root w)) !! q
             = files w !! q)
  /\ dom (files (snd (ensure_header env filepath repo_root w)))
     = dom (files w).
Proof.
  split.
  - intros q. apply ensure_header_other_files.
  - apply ensure_header_dom.
Qed.

(** X2. A file below the root that is not a readable UTF-8 text file is
    never written.  When it cannot be opened, [open] raises [OSError]:
    nothing is opened and no file is created.  When it can be opened but
    does not hold UTF-8, [readlines] raises [UnicodeDecodeError] after the
    one [open] for reading, and the content of every file is as it was. *)
Theorem ensure_header_unreadable
    (env : Env) (filepath : string) (repo_root rel : PurePath) (w : world) :
  Pathlib.relative_to (Path_resolve env filepath) repo_root = Ok rel ->
  files w !! resolve env filepath = None ->
  ensure_header env filepath repo_root w
  = if not_utf8 env (resolve env filepath)
    then (Raise UnicodeDecodeError,
          {| files := files w;
             opened := opened w ++ [(resolve env filepath, ReadUpdate)] |})
    else (Raise OSError, w).
Proof.
  intros Hrel Hf.
  pose proof (compute_header_inside env filepath repo_root rel Hrel) as Hh.
  destruct (not_utf8 env (resolve env filepath)) eqn:Hu.
  - now apply ensure_header_not_utf8 with (header := "# " +:+ Pathlib.as_posix rel +:+ nl).
  - now apply ensure_header_no_file with (header := "# " +:+ Pathlib.as_posix rel +:+ nl).
Qed.

Lemma ensure_header_unreadable_witness :
  ensure_header Cases.env_latin1 "src/latin1.py" Sample.root Sample.stale
  = (Raise UnicodeDecodeError,
     {| files := files Sample.stale;
        opened := [(Cases.latin1_py, ReadUpdate)] |})
  /\ ensure_header Cases.env_latin1 "src/missing.py" Sample.root Sample.stale
     = (Raise OSError, Sample.stale).
Proof.
  split.
  - apply (ensure_header_unreadable Cases.env_latin1 "src/latin1.py"
             Sample.root {| anchored := false; parts := ["src"; "latin1.py"] |}
             Sample.stale); reflexivity.
  - apply (ensure_header_unreadable Cases.env_latin1 "src/missing.py"
             Sample.root {| anchored := false; parts := ["src"; "missing.py"] |}
             Sample.stale); reflexivity.
Defined.

(** ** What a run of [main] touches *)

Section MainFrame.

Import Str TextIO.

Variable env : Env.

(** A relation between the state before and the state after that every
    step of the loop keeps is kept by the loop. *)
Lemma for_each_preserves {A} (body : A -> M unit) (R : world -> world -> Prop)
    (l : list A) :
  (forall w, R w w) ->
  (forall w1 w2 w3, R w1 w2 -> R w2 w3 -> R w1 w3) ->
  (forall x w, In x l -> R w (snd (body x w))) ->
  forall w, R w (snd (for_each body l w)).
Proof.
  intros Hrefl Htrans. induction l as [|x l IH]; intros Hstep w; simpl.
  - apply Hrefl.
  - unfold bind. pose proof (Hstep x w (or_introl eq_refl)) as Hx.
    destruct (body x w) as [[[] | e] w1]; cbn [snd] in *.
    + apply Htrans with w1; [assumption |].
      apply IH. intros y w0 Hy. apply Hstep. now right.
    + assumption.
Qed.

Lemma main_preserves (R : world -> world -> Prop) (argv : list string) :
  (forall w, R w w) ->
  (forall w1 w2 w3, R w1 w2 -> R w2 w3 -> R w1 w3) ->
  (forall repo_root file w,
      In file (drop 1 argv) -> endswith file ".py" = true ->
      R w (snd (ensure_header env file repo_root w))) ->
  forall w, R w (snd (main env argv w)).
Proof.
  intros Hrefl Htrans Hstep w. unfold main, bind at 1, lift.
  destruct (get_repo_root env) as [root | e]; [| apply Hrefl].
  pose proof (for_each_preserves (process_arg env root) R (drop 1 argv)
                Hrefl Htrans) as Hloop.
  unfold bind.
  destruct (for_each (process_arg env root) (drop 1 argv) w)
    as [[[] | e] w1] eqn:E; cbn [snd].
  - replace w1 with (snd (for_each (process_arg env root) (drop 1 argv) w))
      by now rewrite E.
    apply Hloop. intros file w0 Hin. unfold process_arg.
    destruct (endswith file ".py") eqn:Hpy; [now apply Hstep | apply Hrefl].
  - replace w1 with (snd (for_each (process_arg env root) (drop 1 argv) w))
      by now rewrite E.
    apply Hloop. intros file w0 Hin. unfold process_arg.
    destruct (endswith file ".py") eqn:Hpy; [now apply Hstep | apply Hrefl].
Qed.

Lemma in_py_paths (argv : list string) (file : string) :
  In file (drop 1 argv) -> endswith file ".py" = true ->
  In (resolve env file) (py_paths env argv).
Proof.
  intros Hin Hpy. unfold py_paths. apply in_map.
  apply filter_In. now split.
Qed.

End MainFrame.

(** X3. A run of [main], completed or not, neither creates nor removes
    a file, and leaves unchanged every file that is not the resolved path
    of an argument ending in [.py]. *)
Theorem main_touches_only_py_arguments
    (env : Env) (argv : list string) (w : world) :
  dom (files (snd (main env argv w))) = dom (files w)
  /\ (forall q, ~ In q (py_paths env argv) ->
                files (snd (main env argv w)) !! q = files w !! q).
Proof.
  split.
  - apply (main_preserves env
             (fun w1 w2 => dom (files w2) = dom (files w1))).
    + reflexivity.
    + intros w1 w2 w3 H12 H23. congruence.
    + intros root file w0 _ _. apply ensure_header_dom.
  - intros q Hq.
    apply (main_preserves env
             (fun w1 w2 => files w2 !! q = files w1 !! q)).
    + reflexivity.
    + intros w1 w2 w3 H12 H23. congruence.
    + intros root file w0 Hin Hpy. apply ensure_header_other_files.
      intros ->. apply Hq. now apply in_py_paths.
Qed.

(** X4. Every [open] call of a run of [main] is on the resolved path of
    an argument ending in [.py]: the log of opened files grows only by
    such paths. *)
Theorem main_opens_only_py_arguments
    (env : Env) (argv : list string) (w : world) :
  exists new,
    opened (snd (main env argv w)) = opened w ++ new
    /\ Forall (fun o => In (fst o) (py_paths env argv)) new.
Proof.
  apply (main_preserves env
           (fun w1 w2 =>
              exists new,
                opened w2 = opened w1 ++ new
                /\ Forall (fun o => In (fst o) (py_paths env argv)) new)).
  - intros w0. exists []. split; [now rewrite app_nil_r | constructor].
  - intros w1 w2 w3 (n1 & E1 & F1) (n2 & E2 & F2).
    exists (n1 ++ n2). split.
    + now rewrite E2, E1, app_assoc.
    + now apply Forall_app.
  - intros root file w0 Hin Hpy.
    destruct (ensure_header_log env file root w0) as (new & E & F).
    exists new. split; [assumption |].
    eapply Forall_impl; [exact F |].
    intros o ->. now apply in_py_paths.
Qed.

(** ** The header and the lines of a stamped file *)

Section StampedFile.

Import Str TextIO.

Lemma strip_prefix_spec (root p r : list string) :
  Pathlib.strip_prefix root p = Some r <-> p = root ++ r.
Proof.
  revert p. induction root as [|c root IH]; intros p; simpl.
  - split; [now intros [= ->] | now intros ->].
  - destruct p as [|c' p]; [split; discriminate |].
    destruct (String.eqb_spec c c') as [-> | Hne].
    + rewrite IH. split; [now intros -> | now intros [= ->]].
    + split; [discriminate | intros [= H _]; congruence].
Qed.

Lemma has_cr_header (s : string) :
  has_cr ("# " +:+ s +:+ nl) = has_cr s.
Proof.
  rewrite !has_cr_append. simpl. now rewrite orb_false_r.
Qed.

(** The text a completed run leaves in the file. *)
Lemma ensure_header_text
    (env : Env) (filepath : string) (repo_root rel : PurePath)
    (w : world) (content : string) :
  Pathlib.relative_to (Path_resolve env filepath) repo_root = Ok rel ->
  files w !! resolve env filepath = Some content ->
  exists d,
    has_cr d = false
    /\ ensure_header env filepath repo_root w
       = (Ok tt,
          {| files :=
               <[resolve env filepath :=
                   writelines (linesep env)
                     (("# " +:+ Pathlib.as_posix rel +:+ nl) :: splitlines d)]>
                 (files w);
             opened := (opened w ++ [(resolve env filepath, ReadUpdate)])
                       ++ [(resolve env filepath, WriteTruncate)] |}).
Proof.
  intros Hrel Hf.
  destruct (stamp_lines_of_text ("# " +:+ Pathlib.as_posix rel +:+ nl)
              (decode_newlines content)) as (d & E & Hcr).
  exists d. split; [apply Hcr, decode_from_no_cr |].
  rewrite <- E.
  apply (ensure_header_ok env filepath repo_root w _ content);
    [now apply compute_header_inside | assumption].
Qed.

End StampedFile.

(** X5. [ensure_header] computes a header exactly for the files whose
    resolved path extends the path of an absolute root, and the header is
    then the comment marker, the remaining components joined by [/], and a
    line feed. *)
Theorem compute_header_below_root
    (env : Env) (filepath : string) (repo_root : PurePath) (header : string) :
  compute_header env filepath repo_root = Ok header <->
  anchored repo_root = true
  /\ exists r,
       resolve env filepath = parts repo_root ++ r
       /\ header
          = "# " +:+ Pathlib.as_posix {| anchored := false; parts := r |} +:+ nl.
Proof.
  split.
  - intros H.
    destruct (compute_header_shape env filepath repo_root header H)
      as (rel & Hrel & ->).
    unfold Pathlib.relative_to in Hrel. cbn [anchored parts Path_resolve] in Hrel.
    destruct (anchored repo_root); [| discriminate].
    cbn [Bool.eqb] in Hrel.
    destruct (Pathlib.strip_prefix (parts repo_root) (resolve env filepath))
      as [r |] eqn:E; [| discriminate].
    injection Hrel as <-. split; [reflexivity |].
    exists r. split; [now apply strip_prefix_spec | reflexivity].
  - intros (Ha & r & Hr & ->).
    apply compute_header_inside.
    unfold Pathlib.relative_to. cbn [anchored parts Path_resolve].
    rewrite Ha. cbn [Bool.eqb].
    apply strip_prefix_spec in Hr. now rewrite Hr.
Qed.

(** X6. The postcondition of a completed run: for a file below the root
    that can be opened, when the relative path is a single line the file
    read back starts with exactly the header line, whatever its first line
    was before. *)
Theorem ensure_header_first_line
    (env : Env) (filepath : string) (repo_root rel : PurePath)
    (w : world) (content : string) :
  Pathlib.relative_to (Path_resolve env filepath) repo_root = Ok rel ->
  Str.single_line (Pathlib.as_posix rel) = true ->
  files w !! resolve env filepath = Some content ->
  exists w' new rest,
    ensure_header env filepath repo_root w = (Ok tt, w')
    /\ files w' !! resolve env filepath = Some new
    /\ TextIO.readlines new = ("# " +:+ Pathlib.as_posix rel +:+ nl) :: rest.
Proof.
  intros Hrel Hone Hf.
  destruct (ensure_header_text env filepath repo_root rel w content Hrel Hf)
    as (d & Hcr & ->).
  do 3 eexists. split; [reflexivity |]. cbn [files]. split.
  - apply lookup_insert_eq.
  - now apply readlines_writelines.
Qed.

Lemma ensure_header_first_line_witness :
  exists w' new rest,
    ensure_header Sample.env_crlf "src/a.py" Sample.root Cases.two_files
    = (Ok tt, w')
    /\ files w' !! Sample.a_py = Some new
    /\ TextIO.readlines new = ("# src/a.py" +:+ nl) :: rest.
Proof.
  apply (ensure_header_first_line Sample.env_crlf "src/a.py" Sample.root
           {| anchored := false; parts := ["src"; "a.py"] |} Cases.two_files
           ("# old" +:+ String CR nl +:+ "x = 1" +:+ String CR nl));
    reflexivity.
Defined.

(** X7. A completed run leaves the file with the line ends of the
    platform: when the relative path holds no carriage return, writing the
    lines read from the new content gives the new content again, and where
    the line separator is a line feed the new content holds no carriage
    return. *)
Theorem ensure_header_normalises_line_ends
    (env : Env) (filepath : string) (repo_root rel : PurePath)
    (w : world) (content : string) :
  Pathlib.relative_to (Path_resolve env filepath) repo_root = Ok rel ->
  Str.has_cr (Pathlib.as_posix rel) = false ->
  files w !! resolve env filepath = Some content ->
  exists new,
    files (snd (ensure_header env filepath repo_root w))
      !! resolve env filepath = Some new
    /\ TextIO.encode_newlines (linesep env) (TextIO.decode_newlines new) = new
    /\ (linesep env = NL_LF -> Str.has_cr new = false).
Proof.
  intros Hrel Hpath Hf.
  destruct (ensure_header_text env filepath repo_root rel w content Hrel Hf)
    as (d & Hcr & ->).
  eexists. cbn [snd files]. split; [apply lookup_insert_eq |].
  unfold TextIO.writelines. rewrite concat_cons, concat_splitlines.
  assert (Ht : Str.has_cr (("# " +:+ Pathlib.as_posix rel +:+ nl) +:+ d) = false).
  { now rewrite has_cr_append, has_cr_header, Hpath, Hcr. }
  split.
  - now rewrite decode_encode.
  - intros ->. now rewrite encode_lf.
Qed.

Lemma ensure_header_normalises_line_ends_witness :
  exists new,
    files (snd (ensure_header Sample.env_in_repo "src/a.py" Sample.root
                  Cases.two_files)) !! Sample.a_py = Some new
    /\ TextIO.encode_newlines NL_LF (TextIO.decode_newlines new) = new
    /\ (NL_LF = NL_LF -> Str.has_cr new = false).
Proof.
  apply (ensure_header_normalises_line_ends Sample.env_in_repo "src/a.py"
           Sample.root {| anchored := false; parts := ["src"; "a.py"] |}
           Cases.two_files
           ("# old" +:+ String CR nl +:+ "x = 1" +:+ String CR nl));
    reflexivity.
Defined.

(** X8. On the list of lines the update is idempotent for every header
    that starts with the comment marker, as every computed header does:
    applied to its own result it changes nothing, whatever the path. *)
Theorem stamp_lines_idempotent (s : string) (lines : list string) :
  stamp_lines ("# " +:+ s) (stamp_lines ("# " +:+ s) lines)
  = stamp_lines ("# " +:+ s) lines.
Proof.
  destruct (stamp_lines_head ("# " +:+ s) lines)
    as [-> | (l0 & rest & _ & ->)];
    apply stamp_lines_keep, startswith_append.
Qed.

(** X9. Reading a file and writing the lines back unchanged gives a file
    that reads as the same lines, whatever line ends the file had and
    whatever the line separator of the platform. *)
Theorem readlines_writelines_readlines (ls : newline) (content : string) :
  TextIO.readlines (TextIO.writelines ls (TextIO.readlines content))
  = TextIO.readlines content.
Proof.
  unfold TextIO.readlines, TextIO.writelines.
  rewrite concat_splitlines, decode_encode; [reflexivity |].
  apply decode_from_no_cr.
Qed.

(** ** How [main] ends *)

Section MainOutcomes.

Import Str TextIO.



(** Once a step has raised, the arguments that follow play no part. *)
Lemma for_each_raise_app {A} (body : A -> M unit) (l1 l2 : list A)
    (w w' : world) (e : exn) :
  for_each body l1 w = (Raise e, w') ->
  for_each body (l1 ++ l2) w = (Raise e, w').
Proof.
  revert w. induction l1 as [|x l1 IH]; intros w; simpl; [discriminate |].
  unfold bind. destruct (body x w) as [[[] | e'] w1]; [apply IH | trivial].
Qed.




End MainOutcomes.





(** X12. [main] stops at the first argument that raises: the arguments
    that follow it are not processed, so the exception and the state left
    are those of the run without them. *)
Theorem main_stops_at_first_error
    (env : Env) (script : string) (before after : list string)
    (w w' : world) (e : exn) :
  main env (script :: before) w = (Raise e, w') ->
  main env (script :: before ++ after) w = (Raise e, w').
Proof.
  unfold main, bind at 1 3, lift.
  destruct (get_repo_root env) as [root | e0]; [| trivial].
  unfold bind. cbn [drop]. rewrite !drop_0.
  destruct (for_each (process_arg env root) before w)
    as [[[] | e1] w1] eqn:E; unfold ret; intros H; [discriminate H |].
  injection H as <- <-.
  now rewrite (for_each_raise_app (process_arg env root) before after w w1 e1 E).
Qed.

Lemma main_stops_at_first_error_witness :
  main Sample.env_in_repo
    (Sample.script :: ["src/a.py"; "src/missing.py"]) Cases.two_files
  = (Raise OSError,
     snd (main Sample.env_in_repo
            (Sample.script :: ["src/a.py"; "src/missing.py"]) Cases.two_files))
  /\ main Sample.env_in_repo
       (Sample.script :: ["src/a.py"; "src/missing.py"] ++ ["src/b.py"])
       Cases.two_files
     = (Raise OSError,
        snd (main Sample.env_in_repo
               (Sample.script :: ["src/a.py"; "src/missing.py"])
               Cases.two_files)).
Proof.
  assert (H : main Sample.env_in_repo
                (Sample.script :: ["src/a.py"; "src/missing.py"])
                Cases.two_files
              = (Raise OSError,
                 snd (main Sample.env_in_repo
                        (Sample.script :: ["src/a.py"; "src/missing.py"])
                        Cases.two_files)))
    by (vm_compute; reflexivity).
  split; [exact H |].
  exact (main_stops_at_first_error Sample.env_in_repo Sample.script
           ["src/a.py"; "src/missing.py"] ["src/b.py"] Cases.two_files _
           OSError H).
Defined.





(** ** The branch guard *)

Section GuardFacts.

Import Str.

Lemma lstrip_all_space (a : string) : all_space a = true -> lstrip a = "".
Proof.
  induction a as [|c a IH]; simpl; [reflexivity |].
  intros H. apply andb_true_iff in H as [Hc Ha]. now rewrite Hc, IH.
Qed.

Lemma rstrip_all_space (b : string) : all_space b = true -> rstrip b = "".
Proof.
  induction b as [|c b IH]; simpl; [reflexivity |].
  intros H. apply andb_true_iff in H as [Hc Hb]. now rewrite (IH Hb), Hc.
Qed.

Lemma lstrip_padding (a s : string) :
  all_space a = true -> lstrip (a +:+ s) = lstrip s.
Proof.
  induction a as [|c a IH]; intros H; [reflexivity |].
  simpl in H. apply andb_true_iff in H as [Hc Ha].
  rewrite append_cons. simpl. now rewrite Hc, IH.
Qed.

Lemma rstrip_padding (s b : string) :
  all_space b = true -> rstrip (s +:+ b) = rstrip s.
Proof.
  intros Hb. induction s as [|c s IH].
  - rewrite append_nil_l. now apply rstrip_all_space.
  - rewrite append_cons. simpl. now rewrite IH.
Qed.

(** White space around a text does not count for [strip]. *)
Lemma strip_padding (a s b : string) :
  all_space a = true -> all_space b = true ->
  strip (a +:+ s +:+ b) = strip s.
Proof.
  intros Ha Hb. unfold strip. rewrite (lstrip_padding a _ Ha).
  induction s as [|c s IH].
  - rewrite append_nil_l. now rewrite (lstrip_all_space b Hb).
  - rewrite append_cons. simpl. destruct (isspace c); [assumption |].
    rewrite <- append_cons. now apply rstrip_padding.
Qed.

End GuardFacts.

(** X15. The guard lets the commit through, with exit status 0, exactly
    when git answered and the trimmed branch name is neither [main] nor
    [master]; it prints nothing unless it exits with code 1, and a failed
    query ends the guard on that exception with nothing printed. *)
Theorem block_branch_allows (env : Env) :
  (exit_code (fst (block_branch env)) = 0 <->
   exists out,
     check_output (git_abbrev_ref_head env) = Ok out
     /\ Str.strip out <> "main" /\ Str.strip out <> "master")
  /\ (snd (block_branch env) <> "" -> fst (block_branch env) = Exit 1)
  /\ (forall e,
         check_output (git_abbrev_ref_head env) = Raise e ->
         block_branch env = (Traceback e, "")).
Proof.
  unfold block_branch.
  destruct (check_output (git_abbrev_ref_head env)) as [out | e].
  - destruct (String.eqb_spec (Str.strip out) "main") as [Hm | Hm];
      [| destruct (String.eqb_spec (Str.strip out) "master") as [Hs | Hs]];
      cbn [orb fst snd exit_code].
    + repeat split; try discriminate; try tauto.
      intros (o & [= <-] & H & _). contradiction.
    + repeat split; try discriminate; try tauto.
      intros (o & [= <-] & _ & H). contradiction.
    + repeat split; try discriminate; try tauto.
      intros _. exists out. auto.
  - cbn [fst snd exit_code]. repeat split; try discriminate; try tauto.
    + intros (o & H & _). discriminate.
    + now intros e0 [= ->].
Qed.

(** X16. White space around the answer of git, such as the line end git
    prints after the name, does not change what the guard does. *)
Theorem block_branch_ignores_padding
    (env env' : Env) (rc : Z) (a out b : string) :
  all_space a = true -> all_space b = true ->
  git_abbrev_ref_head env = Completed rc out ->
  git_abbrev_ref_head env' = Completed rc (a +:+ out +:+ b) ->
  block_branch env' = block_branch env.
Proof.
  intros Ha Hb He He'. unfold block_branch, check_output.
  rewrite He, He'. destruct (rc =? 0); [| reflexivity].
  now rewrite (strip_padding a out b Ha Hb).
Qed.

Lemma block_branch_ignores_padding_witness :
  block_branch Cases.env_padded = block_branch Cases.env_on_master
  /\ block_branch Cases.env_padded = (Exit 1, refusal "master" +:+ nl).
Proof.
  split; [| reflexivity].
  apply (block_branch_ignores_padding Cases.env_on_master Cases.env_padded 0
           (" " +:+ nl) "master" (String CR nl)); reflexivity.
Defined.

(** ** Running the stamper again *)

Section Rerun.

Import Str TextIO.

Variable env : Env.
Variable repo_root : PurePath.

Lemma stamped_for_files (w w2 : world) (file : string) :
  files w2 = files w ->
  stamped_for env repo_root w file -> stamped_for env repo_root w2 file.
Proof.
  intros E (rel & d & Hrel & Hd & Hf). exists rel, d. now rewrite E.
Qed.

(** A run on a file that is already stamped completes and writes back
    what the file holds. *)
Lemma ensure_header_on_stamped (w : world) (file : string) :
  (forall rel,
      Pathlib.relative_to (Path_resolve env file) repo_root = Ok rel ->
      single_line (Pathlib.as_posix rel) = true) ->
  stamped_for env repo_root w file ->
  exists w',
    ensure_header env file repo_root w = (Ok tt, w') /\ files w' = files w.
Proof.
  intros Hone (rel & d & Hrel & Hd & Hf).
  eexists. split.
  - apply (ensure_header_ok env file repo_root w _ _
             (compute_header_inside env file repo_root rel Hrel) Hf).
  - cbn [files].
    rewrite readlines_writelines by (auto using Hone).
    rewrite stamp_lines_keep by apply header_starts.
    now apply insert_id.
Qed.

Lemma ensure_header_stamps (w w' : world) (file : string) :
  ensure_header env file repo_root w = (Ok tt, w') ->
  stamped_for env repo_root w' file.
Proof.
  intros Hrun.
  destruct (ensure_header_cases env file repo_root w)
    as [(header & content & Hh & Hf) | (e & w1 & He & _)]; [| congruence].
  destruct (compute_header_shape env file repo_root header Hh)
    as (rel & Hrel & _).
  destruct (ensure_header_text env file repo_root rel w content Hrel Hf)
    as (d & Hd & Hw).
  rewrite Hw in Hrun. injection Hrun as <-.
  exists rel, d. cbn [files]. repeat split; try assumption.
  apply lookup_insert_eq.
Qed.

(** Stamping a file keeps every stamped file stamped. *)
Lemma ensure_header_keeps_stamped (w : world) (file other : string) :
  (forall rel,
      Pathlib.relative_to (Path_resolve env file) repo_root = Ok rel ->
      single_line (Pathlib.as_posix rel) = true) ->
  stamped_for env repo_root w other ->
  stamped_for env repo_root (snd (ensure_header env file repo_root w)) other.
Proof.
  intros Hone Hst.
  destruct (decide (resolve env file = resolve env other)) as [Heq | Hne].
  - assert (Hfile : stamped_for env repo_root w file).
    { destruct Hst as (rel & d & Hrel & Hd & Hf). exists rel, d.
      unfold Path_resolve in *. now rewrite Heq. }
    destruct (ensure_header_on_stamped w file Hone Hfile) as (w' & -> & E).
    now apply stamped_for_files with w.
  - destruct Hst as (rel & d & Hrel & Hd & Hf). exists rel, d.
    repeat split; try assumption.
    rewrite ensure_header_other_files; [assumption | congruence].
Qed.

Lemma for_each_keeps_stamped (l : list string) (w : world) (other : string) :
  one_line_paths env repo_root l ->
  stamped_for env repo_root w other ->
  stamped_for env repo_root
    (snd (for_each (process_arg env repo_root) l w)) other.
Proof.
  intros Hone.
  apply (for_each_preserves (process_arg env repo_root)
           (fun w1 w2 => stamped_for env repo_root w1 other ->
                         stamped_for env repo_root w2 other)).
  - auto.
  - auto.
  - intros file w0 Hin. unfold process_arg.
    destruct (endswith file ".py") eqn:Hpy; [| auto].
    apply ensure_header_keeps_stamped. intros rel. now apply Hone.
Qed.

Lemma for_each_cons_ok {A} (body : A -> M unit) (x : A) (l : list A)
    (w w' : world) :
  body x w = (Ok tt, w') ->
  for_each body (x :: l) w = for_each body l w'.
Proof. intros H. simpl. unfold bind. now rewrite H. Qed.

Lemma for_each_cons_raise {A} (body : A -> M unit) (x : A) (l : list A)
    (w w' : world) (e : exn) :
  body x w = (Raise e, w') ->
  for_each body (x :: l) w = (Raise e, w').
Proof. intros H. simpl. unfold bind. now rewrite H. Qed.

(** The loop, run on the files a first run of the loop left, changes no
    file. *)
Lemma for_each_rerun (l : list string) :
  one_line_paths env repo_root l ->
  forall w w2,
    files w2 = files (snd (for_each (process_arg env repo_root) l w)) ->
    files (snd (for_each (process_arg env repo_root) l w2)) = files w2.
Proof.
  induction l as [|file l IH]; intros Hone w w2 E; [reflexivity |].
  assert (Hl : one_line_paths env repo_root l).
  { intros f rel Hin. apply Hone. now right. }
  destruct (process_arg env repo_root file w) as [[[] | e] wa] eqn:Hrun.
  - rewrite (for_each_cons_ok _ _ _ _ _ Hrun) in E.
    unfold process_arg in Hrun.
    destruct (endswith file ".py") eqn:Hpy.
    + pose proof (ensure_header_stamps w wa file Hrun) as Hst.
      apply (for_each_keeps_stamped l wa file Hl) in Hst.
      apply (stamped_for_files _ w2 file E) in Hst.
      destruct (ensure_header_on_stamped w2 file) as (w2' & Hrun2 & E2);
        [intros rel; apply Hone; [now left | assumption] | assumption |].
      rewrite (for_each_cons_ok _ file l w2 w2')
        by (unfold process_arg; now rewrite Hpy).
      rewrite <- E2. apply (IH Hl wa). congruence.
    + injection Hrun as <-.
      rewrite (for_each_cons_ok _ file l w2 w2)
        by (unfold process_arg; now rewrite Hpy).
      now apply (IH Hl w).
  - rewrite (for_each_cons_raise _ _ _ _ _ _ Hrun) in E. cbn [snd] in E.
    unfold process_arg in Hrun.
    destruct (endswith file ".py") eqn:Hpy; [| discriminate].
    pose proof (ensure_header_raise_files env file repo_root w wa e Hrun)
      as Hwa.
    assert (E' : files w2 = files w) by congruence.
    destruct (ensure_header_files_only env file repo_root w w2 E')
      as [Hfst _].
    rewrite Hrun in Hfst. cbn [fst] in Hfst.
    destruct (ensure_header env file repo_root w2) as [r w2'] eqn:Hrun2.
    cbn [fst] in Hfst. subst r.
    rewrite (for_each_cons_raise _ file l w2 w2' e)
      by (unfold process_arg; now rewrite Hpy).
    cbn [snd].
    now apply (ensure_header_raise_files env file repo_root w2 w2' e).
Qed.

End Rerun.

(** X17. Running [main] a second time with the same arguments leaves
    every file as the first run left it, whether the first run completed
    or stopped on an exception, provided the relative path of every
    argument ending in [.py] holds neither a line feed nor a carriage
    return. *)
Theorem main_rerun_changes_no_file
    (env : Env) (argv : list string) (w : world) :
  (forall repo_root file rel,
      get_repo_root env = Ok repo_root ->
      In file (drop 1 argv) -> Str.endswith file ".py" = true ->
      Pathlib.relative_to (Path_resolve env file) repo_root = Ok rel ->
      Str.single_line (Pathlib.as_posix rel) = true) ->
  files (snd (main env argv (snd (main env argv w))))
  = files (snd (main env argv w)).
Proof.
  intros Hone.
  destruct (get_repo_root env) as [root | e] eqn:Hroot.
  - assert (Hl : one_line_paths env root (drop 1 argv)).
    { intros file rel Hin Hpy Hrel. now apply (Hone root file rel). }
    assert (Hsnd : forall w0,
               files (snd (main env argv w0))
               = files (snd (for_each (process_arg env root) (drop 1 argv) w0))).
    { intros w0. rewrite (main_with_root env root argv w0 Hroot). unfold bind.
      now destruct (for_each (process_arg env root) (drop 1 argv) w0)
        as [[[] | e] w1]. }
    rewrite Hsnd.
    apply (for_each_rerun env root (drop 1 argv) Hl w). apply Hsnd.
  - unfold main, bind, lift. now rewrite Hroot.
Qed.

Lemma main_rerun_changes_no_file_witness :
  files (snd (main Sample.env_in_repo
                [Sample.script; "src/a.py"; "src/missing.py"; "src/b.py"]
                (snd (main Sample.env_in_repo
                        [Sample.script; "src/a.py"; "src/missing.py"; "src/b.py"]
                        Cases.two_files))))
  = files (snd (main Sample.env_in_repo
                  [Sample.script; "src/a.py"; "src/missing.py"; "src/b.py"]
                  Cases.two_files)).
Proof.
  apply (main_rerun_changes_no_file Sample.env_in_repo
           [Sample.script; "src/a.py"; "src/missing.py"; "src/b.py"]
           Cases.two_files).
  intros root file rel Hroot Hin Hpy Hrel.
  injection Hroot as <-.
  destruct Hin as [<- | [<- | [<- | []]]];
    vm_compute in Hrel; injection Hrel as <-; reflexivity.
Defined.
